(** * volt-back: wallet ledger and payment reconciliation (app.py)

    A shallow embedding of the balance-affecting request handlers of
    [app.py] and the properties stated about them.

    Modelling conventions.
    - The Supabase store is a record of tables; a table is the list of its
      rows, in table order.  Columns that no handler modelled here reads
      back (descriptions, bank card ids, metadata, receipt ids, update
      stamps) are left out of the rows.
    - Numbers are rationals ([Q]): the store's numeric columns hold decimals,
      and a Python float is the rational it denotes.  A float product is
      rounded to the nearest double ([float_mul]), and [round(x, 2)] is
      taken of the double's exact value ([round2]); the amount of a request
      is the value Python holds after parsing the JSON number
      ([python_float] of the literal).  Sums and differences of amounts are
      taken exactly; no rounding step follows them in the source.
    - Every [.execute()] is one store call.  The environment decides how a
      call answers: [Normal] (the call takes effect and returns its data),
      [NoEffect] (nothing is written and the response carries no data) or
      [Throws] (nothing is written and the call raises).  The schedule of
      answers is part of the world the handlers run in; when it is
      exhausted the store answers normally.
    - [.single().execute()] raises unless exactly one row matches (the
      client's error PGRST116, the one [verify_user_password] catches), so
      the [if response.data] tests after it never see an empty response.
    - A response of the store client carries [data] and [count] only:
      reading [status_code] or [error] from it raises [AttributeError].
      The reads guarded by [hasattr] are therefore skipped.
    - Both clients ([supabase], [razorpay_client]) are initialised.
    - Log lines and the Telegram notification leave the store untouched and
      are not modelled, except where building the message can raise. *)

From Stdlib Require Import ZArith QArith String List Bool Lia.
Import ListNotations.

Local Open Scope string_scope.
Local Open Scope list_scope.

(** ** Rows and tables *)

Record wallet := mkWallet {
  w_user_id : string;
  balance : Q;
  order_income : Q;
  total_income : Q;
  total_referral_earnings : Q;
  pending_referral_bonus : Q;
  recharged_amount : Q
}.

Record transaction := mkTransaction {
  t_id : nat;
  t_user_id : string;
  t_amount : Q;
  t_fee : option Q;
  t_type : string;
  t_status : string;
  payment_gateway_id : option string;
  admin_notes : string;
  created_at : Z
}.

Record manual_payment := mkManualPayment {
  mp_id : nat;
  mp_user_id : string;
  mp_amount : Q;
  utr_number : string;
  mobile_number : string;
  mp_status : string;
  is_credited : bool
}.

Record profile := mkProfile {
  p_id : string;
  referrer_id : option string
}.

Record commission := mkCommission {
  c_referrer_id : string;
  c_referred_user_id : string;
  commission_amount : Q;
  investment_amount : Q
}.

Record database := mkDatabase {
  user_wallets : list wallet;
  transactions : list transaction;
  manual_payments : list manual_payment;
  profiles : list profile;
  commissions : list commission
}.

(** ** Python truthiness and small helpers *)

Definition truthy_str (o : option string) : bool :=
  match o with
  | Some s => negb (s =? "")
  | None => false
  end.

Definition str_of (o : option string) : string :=
  match o with
  | Some s => s
  | None => ""
  end.

Definition truthy_num (o : option Q) : bool :=
  match o with
  | Some q => negb (Qeq_bool q 0)
  | None => false
  end.

Definition nonempty {A : Type} (l : list A) : bool :=
  match l with
  | [] => false
  | _ :: _ => true
  end.

Definition is_some {A : Type} (o : option A) : bool :=
  match o with
  | Some _ => true
  | None => false
  end.

Definition str_in (s : string) (l : list string) : bool :=
  existsb (String.eqb s) l.

Definition opt_str_eqb (o : option string) (s : string) : bool :=
  match o with
  | Some x => x =? s
  | None => false
  end.

Definition Qlt_bool (x y : Q) : bool := negb (Qle_bool y x).

(** Python's [round(x)] to the nearest integer, ties to even. *)
Definition round_half_even (q : Q) : Z :=
  let n := Qnum q in
  let d := Zpos (Qden q) in
  let fl := (n / d)%Z in
  let r2 := (2 * (n mod d))%Z in
  if (r2 <? d)%Z then fl
  else if (d <? r2)%Z then (fl + 1)%Z
  else if Z.even fl then fl else (fl + 1)%Z.

(** [round(x, 2)] of the number whose exact value is [q]: the nearest
    decimal of two places, ties to even, which is also what the rounded
    float prints as and what the store receives. *)
Definition round2 (q : Q) : Q :=
  Qmake (round_half_even (q * 100)) 100.

(** ** Python floats

    A float is an IEEE 754 double.  [python_float q] is the double nearest
    to [q], ties to even, for magnitudes in the normal range (no overflow,
    no subnormals): what [float(x)] and the JSON parser produce. *)

(** [floor (log2 |q|)] for [q] other than 0. *)
Definition binade (q : Q) : Z :=
  let n := Z.abs (Qnum q) in
  let d := Zpos (Qden q) in
  let e0 := (Z.log2 n - Z.log2 d)%Z in
  if (n * 2 ^ Z.max 0 (- e0) <? d * 2 ^ Z.max 0 e0)%Z then (e0 - 1)%Z else e0.

Definition python_float (q : Q) : Q :=
  if Qeq_bool q 0 then 0
  else
    let s := (binade q - 52)%Z in
    let scaled := Qmake (Z.abs (Qnum q) * 2 ^ Z.max 0 (- s))
                    (Qden q * Z.to_pos (2 ^ Z.max 0 s)) in
    let m := round_half_even scaled in
    Qmake (Z.sgn (Qnum q) * m * 2 ^ Z.max 0 s) (Z.to_pos (2 ^ Z.max 0 (- s))).

(** [float(x) * y] for a float literal [y]. *)
Definition float_mul (x y : Q) : Q :=
  python_float (python_float x * python_float y).

(** [.single()]: the row when exactly one matches. *)
Definition single {A : Type} (rows : list A) : option A :=
  match rows with
  | [r] => Some r
  | _ => None
  end.

Definition fresh_id (ids : list nat) : nat := S (fold_right Nat.max 0%nat ids).

(** ** The store monad: state, answer schedule, exceptions *)

Inductive fault := Normal | NoEffect | Throws.

Inductive exn := SignatureVerificationError | StoreError | OtherError.

Record world := mkWorld {
  store : database;
  answers : list fault;
  now : Z
}.

Inductive result (A : Type) :=
| Done (a : A) (w : world)
| Raised (e : exn) (w : world).

Arguments Done {A} a w.
Arguments Raised {A} e w.

Definition M (A : Type) : Type := world -> result A.

Definition ret {A : Type} (a : A) : M A := fun w => Done a w.

Definition bind {A B : Type} (m : M A) (k : A -> M B) : M B :=
  fun w =>
    match m w with
    | Done a w' => k a w'
    | Raised e w' => Raised e w'
    end.

Definition raise {A : Type} (e : exn) : M A := fun w => Raised e w.

(** [try: m except Exception: h]. *)
Definition try_catch {A : Type} (m : M A) (h : exn -> M A) : M A :=
  fun w =>
    match m w with
    | Done a w' => Done a w'
    | Raised e w' => h e w'
    end.

Declare Scope store_scope.
Delimit Scope store_scope with store.
Notation "x <- c ;; k" := (bind c (fun x => k))
  (at level 61, c at next level, right associativity) : store_scope.
Notation "c ;;; k" := (bind c (fun _ => k))
  (at level 61, right associativity) : store_scope.
Local Open Scope store_scope.

Definition final_world {A : Type} (r : result A) : world :=
  match r with
  | Done _ w => w
  | Raised _ w => w
  end.

Definition final_db {A : Type} (r : result A) : database := store (final_world r).

Definition returned {A : Type} (r : result A) : option A :=
  match r with
  | Done a _ => Some a
  | Raised _ _ => None
  end.

(** One store call: [run] is what the call does when the store answers
    normally, [empty] the data of a response without data. *)
Definition execute {A : Type} (run : database -> database * A) (empty : A) : M A :=
  fun w =>
    let f := hd Normal (answers w) in
    let rest := tl (answers w) in
    match f with
    | Normal =>
        let (d, a) := run (store w) in
        Done a (mkWorld d rest (now w))
    | NoEffect => Done empty (mkWorld (store w) rest (now w))
    | Throws => Raised StoreError (mkWorld (store w) rest (now w))
    end.

(** One [.single().execute()] call: it raises unless the store answers
    normally with exactly one row. *)
Definition execute_single {A : Type} (run : database -> database * option A)
  : M (option A) :=
  fun w =>
    let f := hd Normal (answers w) in
    let rest := tl (answers w) in
    match f with
    | Normal =>
        let (d, a) := run (store w) in
        match a with
        | Some r => Done (Some r) (mkWorld d rest (now w))
        | None => Raised StoreError (mkWorld (store w) rest (now w))
        end
    | NoEffect => Raised StoreError (mkWorld (store w) rest (now w))
    | Throws => Raised StoreError (mkWorld (store w) rest (now w))
    end.

(** Reading an attribute the response object does not have
    ([status_code], [error]): [AttributeError]. *)
Definition missing_attribute {A : Type} : M A := raise OtherError.

Definition clock : M Z := fun w => Done (now w) w.

(** ** Table operations *)

Definition set_wallets (d : database) (ws : list wallet) : database :=
  mkDatabase ws (transactions d) (manual_payments d) (profiles d) (commissions d).

Definition set_transactions (d : database) (ts : list transaction) : database :=
  mkDatabase (user_wallets d) ts (manual_payments d) (profiles d) (commissions d).

Definition set_manual_payments (d : database) (ps : list manual_payment) : database :=
  mkDatabase (user_wallets d) (transactions d) ps (profiles d) (commissions d).

Definition set_commissions (d : database) (cs : list commission) : database :=
  mkDatabase (user_wallets d) (transactions d) (manual_payments d) (profiles d) cs.

(** [table.update(payload).eq(...)]: rewrite the matching rows, return them. *)
Definition update_rows {A : Type} (p : A -> bool) (f : A -> A) (rows : list A) : list A :=
  map (fun r => if p r then f r else r) rows.

Definition updated_rows {A : Type} (p : A -> bool) (f : A -> A) (rows : list A) : list A :=
  map f (filter p rows).

Definition update_wallets (p : wallet -> bool) (f : wallet -> wallet)
  : database -> database * list wallet :=
  fun d => (set_wallets d (update_rows p f (user_wallets d)),
            updated_rows p f (user_wallets d)).

Definition update_transactions (p : transaction -> bool) (f : transaction -> transaction)
  : database -> database * list transaction :=
  fun d => (set_transactions d (update_rows p f (transactions d)),
            updated_rows p f (transactions d)).

Definition update_manual_payments (p : manual_payment -> bool)
  (f : manual_payment -> manual_payment)
  : database -> database * list manual_payment :=
  fun d => (set_manual_payments d (update_rows p f (manual_payments d)),
            updated_rows p f (manual_payments d)).

Definition select_wallet (user_id : string) : database -> database * option wallet :=
  fun d => (d, single (filter (fun w => w_user_id w =? user_id) (user_wallets d))).

Definition select_profile (user_id : string) : database -> database * option profile :=
  fun d => (d, single (filter (fun p => p_id p =? user_id) (profiles d))).

Definition select_transaction (id : nat) : database -> database * option transaction :=
  fun d => (d, single (filter (fun t => Nat.eqb (t_id t) id) (transactions d))).

Definition insert_transaction (mk : nat -> transaction)
  : database -> database * list transaction :=
  fun d =>
    let t := mk (fresh_id (map t_id (transactions d))) in
    (set_transactions d (transactions d ++ [t]), [t]).

Definition insert_manual_payment (mk : nat -> manual_payment)
  : database -> database * list manual_payment :=
  fun d =>
    let p := mk (fresh_id (map mp_id (manual_payments d))) in
    (set_manual_payments d (manual_payments d ++ [p]), [p]).

Definition insert_commission (c : commission) : database -> database * list commission :=
  fun d => (set_commissions d (commissions d ++ [c]), [c]).

(** Modelled from the spec: the stored procedure
    [increment_referral_commission(p_user_id, p_amount)] is not part of
    [app.py].  The source's comment and the spec say that it adds [p_amount]
    to both [total_referral_earnings] and [order_income] of the referrer's
    wallet row, as one row-level increment.  The procedure returns nothing. *)
Definition increment_referral_commission (p_user_id : string) (p_amount : Q)
  : database -> database * unit :=
  fun d =>
    (set_wallets d
       (update_rows (fun w => w_user_id w =? p_user_id)
          (fun w => mkWallet (w_user_id w) (balance w)
                      (order_income w + p_amount) (total_income w)
                      (total_referral_earnings w + p_amount)
                      (pending_referral_bonus w) (recharged_amount w))
          (user_wallets d)),
     tt).

(** Modelled from the spec: the stored procedure
    [increment_recharged_amount(p_user_id, p_amount)] is not part of
    [app.py]; per the spec it performs [recharged_amount += amount] on the
    user's wallet row. *)
Definition increment_recharged_amount (p_user_id : string) (p_amount : Q)
  : database -> database * unit :=
  fun d =>
    (set_wallets d
       (update_rows (fun w => w_user_id w =? p_user_id)
          (fun w => mkWallet (w_user_id w) (balance w)
                      (order_income w) (total_income w)
                      (total_referral_earnings w)
                      (pending_referral_bonus w) (recharged_amount w + p_amount))
          (user_wallets d)),
     tt).

(** ** HTTP responses *)

Record response := mkResponse {
  success : bool;
  status_code : nat
}.

Definition respond (ok : bool) (code : nat) : M response := ret (mkResponse ok code).

(** ** Withdrawal resolution: [update_withdrawal_status_logic] *)

Record status_update := mkStatusUpdate {
  su_transaction_id : option nat;
  su_status : option string;
  su_admin_notes : string
}.

Definition set_status (new_status notes : string) (t : transaction) : transaction :=
  mkTransaction (t_id t) (t_user_id t) (t_amount t) (t_fee t) (t_type t)
    new_status (payment_gateway_id t) notes (created_at t).

Definition set_balance (b : Q) (w : wallet) : wallet :=
  mkWallet (w_user_id w) b (order_income w) (total_income w)
    (total_referral_earnings w) (pending_referral_bonus w) (recharged_amount w).

(** The refund block run for [rejected] and [failed].  Both fetches are
    [.single()] calls, so the two [else] branches that only log are never
    taken: a missing row raises. *)
Definition refund_withdrawal (transaction_id : nat) : M unit :=
  transaction_response <- execute_single (select_transaction transaction_id) ;;
  match transaction_response with
  | Some t =>
      let user_id := t_user_id t in
      let amount_to_refund := t_amount t in
      wallet_response <- execute_single (select_wallet user_id) ;;
      match wallet_response with
      | Some w =>
          let current_balance := balance w in
          let refunded_balance := (current_balance + amount_to_refund)%Q in
          execute (update_wallets (fun r => w_user_id r =? user_id)
                     (set_balance refunded_balance)) [] ;;;
          ret tt
      | None => ret tt
      end
  | None => ret tt
  end.

Definition update_withdrawal_status_logic (data : status_update) : M response :=
  try_catch
    (match su_transaction_id data with
     | None => respond false 400
     | Some transaction_id =>
         if negb (truthy_str (su_status data)) then respond false 400
         else
           let new_status := str_of (su_status data) in
           if negb (str_in new_status ["completed"; "rejected"; "failed"])
           then respond false 400
           else
             (if str_in new_status ["rejected"; "failed"]
              then refund_withdrawal transaction_id
              else ret tt) ;;;
             rows <- execute
                       (update_transactions
                          (fun t => Nat.eqb (t_id t) transaction_id)
                          (set_status new_status (su_admin_notes data))) [] ;;
             if nonempty rows then respond true 200 else respond false 500
     end)
    (fun _ => respond false 500).

(** ** Bonus claim: [claim_referral_bonus] *)

Definition claim_wallet (new_balance new_total_referral_earnings new_order_income : Q)
  (w : wallet) : wallet :=
  mkWallet (w_user_id w) new_balance new_order_income (total_income w)
    new_total_referral_earnings 0 (recharged_amount w).

Definition claim_referral_bonus (userId : option string) : M response :=
  if negb (truthy_str userId) then respond false 400
  else
    let user_id := str_of userId in
    try_catch
      (wallet_response <- execute_single (select_wallet user_id) ;;
       match wallet_response with
       | None => respond false 404
       | Some w =>
           let current_balance := balance w in
           let pending_bonus := pending_referral_bonus w in
           let total_referral_earnings := total_referral_earnings w in
           let current_order_income := order_income w in
           if Qle_bool pending_bonus 0 then respond false 400
           else
             let amount_to_claim := pending_bonus in
             let new_balance := (current_balance + amount_to_claim)%Q in
             let new_total_referral_earnings :=
               (total_referral_earnings + amount_to_claim)%Q in
             let new_order_income := (current_order_income + amount_to_claim)%Q in
             update_wallet_response <-
               execute (update_wallets (fun r => w_user_id r =? user_id)
                          (claim_wallet new_balance new_total_referral_earnings
                             new_order_income)) [] ;;
             if negb (nonempty update_wallet_response) then
               @missing_attribute unit ;;; respond false 500
             else
               created <- clock ;;
               execute (insert_transaction
                          (fun id => mkTransaction id user_id amount_to_claim None
                                       "bonus_referral_signup" "completed" None ""
                                       created)) [] ;;;
               respond true 200
       end)
      (fun _ => respond false 500).

(** ** Referral commission block

    The block between the [REFERRAL COMMISSION LOGIC] markers occurs twice
    in the source, in [admin_verify_manual_payment] and in
    [verify_razorpay_payment], identical up to log texts. *)

Definition COMMISSION_RATE : Q := 10 # 100.

(** [commission_rpc_response.status_code]: the response of an RPC call has
    no such attribute. *)
Definition rpc_status_code (commission_rpc_response : unit) : M nat :=
  missing_attribute.

(** The RPC is executed before its response is inspected; the read of
    [status_code] then raises, and the block's [except] swallows it. *)
Definition referral_commission (user_id : string) (recharge_amount_inr : Q) : M unit :=
  try_catch
    (referrer_response <- execute_single (select_profile user_id) ;;
     let referrer := match referrer_response with
                     | Some p => referrer_id p
                     | None => None
                     end in
     if truthy_str referrer then
       let referrer_id := str_of referrer in
       let commission_amount := float_mul recharge_amount_inr COMMISSION_RATE in
       commission_rpc_response <-
         execute (increment_referral_commission referrer_id commission_amount) tt ;;
       rpc_status <- rpc_status_code commission_rpc_response ;;
       if Nat.eqb rpc_status 204 then
         execute (insert_commission
                    (mkCommission referrer_id user_id commission_amount
                       recharge_amount_inr)) [] ;;;
         ret tt
       else ret tt
     else ret tt)
    (fun _ => ret tt).

(** The wallet step: the RPC's response is not inspected; an exception is
    re-raised as a plain [Exception]. *)
Definition credit_recharged_amount (user_id : string) (amount : Q) : M unit :=
  try_catch
    (execute (increment_recharged_amount user_id amount) tt ;;; ret tt)
    (fun _ => raise OtherError).

(** ** Manual payments: [confirm_manual_payment], [admin_verify_manual_payment] *)

Record payment_submission := mkSubmission {
  ps_userId : option string;
  ps_amount : option Q;
  ps_utrNumber : option string;
  ps_mobileNumber : option string
}.

Definition confirm_manual_payment (data : payment_submission) : M response :=
  if negb (truthy_str (ps_userId data) && truthy_num (ps_amount data)
           && truthy_str (ps_utrNumber data) && truthy_str (ps_mobileNumber data))
  then respond false 400
  else
    match ps_amount data with
    | None => respond false 400
    | Some amount =>
        let user_id := str_of (ps_userId data) in
        let utr := str_of (ps_utrNumber data) in
        let mobile := str_of (ps_mobileNumber data) in
        if negb (Nat.eqb (String.length utr) 12 && Nat.eqb (String.length mobile) 10)
        then respond false 400
        else
          try_catch
            (execute (insert_manual_payment
                        (fun id => mkManualPayment id user_id amount utr mobile
                                     "pending" false)) [] ;;;
             respond true 201)
            (fun _ => respond false 500)
    end.

Definition mark_completed_credited (p : manual_payment) : manual_payment :=
  mkManualPayment (mp_id p) (mp_user_id p) (mp_amount p) (utr_number p)
    (mobile_number p) "completed" true.

Definition mark_completed (p : manual_payment) : manual_payment :=
  mkManualPayment (mp_id p) (mp_user_id p) (mp_amount p) (utr_number p)
    (mobile_number p) "completed" (is_credited p).

Definition select_pending_payments (utr : string)
  : database -> database * list manual_payment :=
  fun d => (d, filter (fun p => (utr_number p =? utr) && (mp_status p =? "pending"))
                 (manual_payments d)).

(** The [for payment_data in response.data] loop, over the rows fetched
    before the loop, with the flag [first_payment_processed]. *)
Fixpoint process_payments (rows : list manual_payment) (first_payment_processed : bool)
  : M unit :=
  match rows with
  | [] => ret tt
  | payment_data :: rest =>
      let user_id := mp_user_id payment_data in
      let recharge_amount_inr := mp_amount payment_data in
      let payment_id := mp_id payment_data in
      if is_credited payment_data then
        process_payments rest first_payment_processed
      else if negb first_payment_processed then
        execute (update_manual_payments (fun r => Nat.eqb (mp_id r) payment_id)
                   mark_completed_credited) [] ;;;
        referral_commission user_id recharge_amount_inr ;;;
        credit_recharged_amount user_id recharge_amount_inr ;;;
        process_payments rest true
      else
        execute (update_manual_payments (fun r => Nat.eqb (mp_id r) payment_id)
                   mark_completed) [] ;;;
        process_payments rest first_payment_processed
  end.

Definition admin_verify_manual_payment (utr_number : option string) : M response :=
  try_catch
    (if negb (truthy_str utr_number) then respond false 400
     else
       let utr := str_of utr_number in
       rows <- execute (select_pending_payments utr) [] ;;
       if negb (nonempty rows) then respond false 404
       else
         process_payments rows false ;;;
         respond true 200)
    (fun _ => respond false 500).

(** ** Gateway recharge: [verify_razorpay_payment] *)

Record razorpay_callback := mkCallback {
  razorpay_order_id : option string;
  razorpay_payment_id : option string;
  razorpay_signature : option string;
  rc_amount : option Q;
  rc_userId : option string
}.

Definition complete_gateway_transaction (payment_id : string) (t : transaction)
  : transaction :=
  mkTransaction (t_id t) (t_user_id t) (t_amount t) (t_fee t) (t_type t)
    "completed" (Some payment_id) (admin_notes t) (created_at t).

Definition fail_gateway_transaction (t : transaction) : transaction :=
  mkTransaction (t_id t) (t_user_id t) (t_amount t) (t_fee t) (t_type t)
    "failed" (payment_gateway_id t) (admin_notes t) (created_at t).

Definition mark_gateway_failed (order_id : string) : M unit :=
  execute (update_transactions (fun t => opt_str_eqb (payment_gateway_id t) order_id)
             fail_gateway_transaction) [] ;;;
  ret tt.

Section Razorpay.

(** [razorpay_client.utility.verify_payment_signature]: the gateway
    library's check of (order id, payment id, signature); it raises
    [SignatureVerificationError] when the check fails. *)
Variable signature_ok : string -> string -> string -> bool.

Definition verify_payment_signature (order_id payment_id signature : string) : M unit :=
  if signature_ok order_id payment_id signature then ret tt
  else raise SignatureVerificationError.

Definition verify_razorpay_payment (data : razorpay_callback) : M response :=
  if negb (truthy_str (razorpay_order_id data) && truthy_str (razorpay_payment_id data)
           && truthy_str (razorpay_signature data) && truthy_num (rc_amount data)
           && truthy_str (rc_userId data))
  then respond false 400
  else
    match rc_amount data with
    | None => respond false 400
    | Some recharge_amount_inr =>
        let order_id := str_of (razorpay_order_id data) in
        let payment_id := str_of (razorpay_payment_id data) in
        let user_id := str_of (rc_userId data) in
        try_catch
          (verify_payment_signature order_id payment_id
             (str_of (razorpay_signature data)) ;;;
           referral_commission user_id recharge_amount_inr ;;;
           credit_recharged_amount user_id recharge_amount_inr ;;;
           update_transaction_response <-
             execute (update_transactions
                        (fun t => opt_str_eqb (payment_gateway_id t) order_id)
                        (complete_gateway_transaction payment_id)) [] ;;
           (if negb (nonempty update_transaction_response)
            then missing_attribute
            else ret tt) ;;;
           execute_single (select_wallet user_id) ;;;
           respond true 200)
          (fun e =>
             match e with
             | SignatureVerificationError =>
                 mark_gateway_failed order_id ;;; respond false 400
             | _ =>
                 mark_gateway_failed order_id ;;; respond false 500
             end)
    end.

End Razorpay.

(** ** Withdrawal request: [handle_withdrawal_request] *)

Record bank_details := mkBankDetails {
  accountNumber : option string;
  bankName : option string
}.

Record withdrawal_request := mkWithdrawal {
  wr_userId : option string;
  wr_amount : option Q;
  wr_bankCardId : option string;
  wr_bankDetails : option bank_details
}.

(** A dict is truthy when it has a key. *)
Definition truthy_details (o : option bank_details) : bool :=
  match o with
  | Some b => is_some (accountNumber b) || is_some (bankName b)
  | None => false
  end.

Definition FEE_RATE : Q := 12 # 100.

Definition seconds_per_day : Z := 86400.

(** Midnight of the current day, as a stamp comparable with [created_at]. *)
Definition start_of_day (t : Z) : Z := (t / seconds_per_day * seconds_per_day)%Z.

Definition select_withdrawals_since (user_id : string) (since : Z)
  : database -> database * list transaction :=
  fun d => (d, filter (fun t => (t_user_id t =? user_id) && (t_type t =? "withdrawal")
                                 && (since <? created_at t)%Z)
                 (transactions d)).

Definition select_investment (user_id : string)
  : database -> database * list manual_payment :=
  fun d => (d, firstn 1 (filter (fun p => (mp_user_id p =? user_id)
                                           && str_in (mp_status p) ["success"; "completed"])
                           (manual_payments d))).

Definition set_order_income (x : Q) (w : wallet) : wallet :=
  mkWallet (w_user_id w) (balance w) x (total_income w)
    (total_referral_earnings w) (pending_referral_bonus w) (recharged_amount w).

(** Building the notification text slices
    [bank_details.get('accountNumber')[-4:]], which raises on a missing
    account number. *)
Definition withdrawal_notification (b : option bank_details) : M unit :=
  match b with
  | Some d => if is_some (accountNumber d) then ret tt else raise OtherError
  | None => raise OtherError
  end.

(** Steps 2 to 4 of the handler, from the fee computation to the
    notification, for the wallet row [w] fetched in step 1. *)
Definition debit_and_record (user_id : string) (amount : Q)
  (details : option bank_details) (w : wallet) : M response :=
  let current_order_income := order_income w in
  let withdrawal_fee := round2 (float_mul amount FEE_RATE) in
  let total_amount_to_deduct := round2 amount in
  if Qlt_bool current_order_income total_amount_to_deduct
  then respond false 400
  else
    let new_order_income := (current_order_income - total_amount_to_deduct)%Q in
    wallet_update_response <-
      execute (update_wallets (fun r => w_user_id r =? user_id)
                 (set_order_income new_order_income)) [] ;;
    if negb (nonempty wallet_update_response) then respond false 500
    else
      created <- clock ;;
      transaction_response <-
        execute (insert_transaction
                   (fun id => mkTransaction id user_id total_amount_to_deduct
                                (Some withdrawal_fee) "withdrawal" "pending" None ""
                                created)) [] ;;
      if negb (nonempty transaction_response) then
        execute (update_wallets (fun r => w_user_id r =? user_id)
                   (set_order_income current_order_income)) [] ;;;
        respond false 500
      else
        withdrawal_notification details ;;;
        respond true 200.

Definition handle_withdrawal_request (data : withdrawal_request) : M response :=
  try_catch
    (if negb (truthy_str (wr_userId data) && truthy_num (wr_amount data)
              && truthy_str (wr_bankCardId data) && truthy_details (wr_bankDetails data))
     then respond false 400
     else
       match wr_amount data with
       | None => respond false 400
       | Some amount =>
           if Qle_bool amount 0 then respond false 400
           else
             let user_id := str_of (wr_userId data) in
             today <- clock ;;
             withdrawal_count_response <-
               execute (select_withdrawals_since user_id (start_of_day today)) [] ;;
             if Nat.leb 2 (List.length withdrawal_count_response) then respond false 403
             else
               investment_check_response <- execute (select_investment user_id) [] ;;
               if negb (nonempty investment_check_response) then respond false 403
               else
                 wallet_response <- execute_single (select_wallet user_id) ;;
                 match wallet_response with
                 | None => respond false 404
                 | Some w => debit_and_record user_id amount (wr_bankDetails data) w
                 end
       end)
    (fun _ => respond false 500).

(** ** Worlds *)

(** The world in which the store answers every call of the run normally. *)
Definition quiet (d : database) (t : Z) : world := mkWorld d [] t.

Definition wallets_of (user_id : string) (d : database) : list wallet :=
  filter (fun w => w_user_id w =? user_id) (user_wallets d).

Definition payments_of (utr : string) (d : database) : list manual_payment :=
  filter (fun p => utr_number p =? utr) (manual_payments d).


Definition transactions_by_id (id : nat) (d : database) : list transaction :=
  filter (fun t => Nat.eqb (t_id t) id) (transactions d).


(** The three gates of a withdrawal request, as the handler evaluates them. *)
Definition withdrawals_today (user_id : string) (clk : Z) (d : database) : list transaction :=
  snd (select_withdrawals_since user_id (start_of_day clk) d).

Definition has_investment (user_id : string) (d : database) : bool :=
  nonempty (snd (select_investment user_id d)).

Definition withdrawal_transaction (id : nat) (user_id : string) (amount : Q) (clk : Z)
  : transaction :=
  mkTransaction id user_id (round2 amount) (Some (round2 (float_mul amount FEE_RATE)))
    "withdrawal" "pending" None "" clk.

(** ** What the calm runs compute

    The store written by a run in which every call answers normally, as a
    function of the store before. *)

Definition referrer_of (user_id : string) (d : database) : option string :=
  match snd (select_profile user_id d) with
  | Some p => referrer_id p
  | None => None
  end.

Definition commission_effect (user_id : string) (amount : Q) (d : database) : database :=
  if truthy_str (referrer_of user_id d) then
    fst (increment_referral_commission (str_of (referrer_of user_id d))
           (float_mul amount COMMISSION_RATE) d)
  else d.

Definition credit_effect (user_id : string) (amount : Q) (d : database) : database :=
  fst (increment_recharged_amount user_id amount
         (commission_effect user_id amount d)).

Fixpoint process_payments_effect (rows : list manual_payment) (first_payment_processed : bool)
  (d : database) : database :=
  match rows with
  | [] => d
  | p :: rest =>
      if is_credited p then process_payments_effect rest first_payment_processed d
      else if negb first_payment_processed then
        process_payments_effect rest true
          (credit_effect (mp_user_id p) (mp_amount p)
             (fst (update_manual_payments (fun r => Nat.eqb (mp_id r) (mp_id p))
                     mark_completed_credited d)))
      else
        process_payments_effect rest first_payment_processed
          (fst (update_manual_payments (fun r => Nat.eqb (mp_id r) (mp_id p))
                  mark_completed d))
  end.

Definition pending_group (utr : string) (d : database) : list manual_payment :=
  snd (select_pending_payments utr d).

(** The row-level writes of the two stored procedures. *)
Definition add_commission (x : Q) (w : wallet) : wallet :=
  mkWallet (w_user_id w) (balance w) (order_income w + x) (total_income w)
    (total_referral_earnings w + x) (pending_referral_bonus w) (recharged_amount w).

Definition add_recharge (x : Q) (w : wallet) : wallet :=
  mkWallet (w_user_id w) (balance w) (order_income w) (total_income w)
    (total_referral_earnings w) (pending_referral_bonus w) (recharged_amount w + x).

(** Every row carrying one of the ids is [completed]. *)
Definition completed_ids (ids : list nat) (d : database) : Prop :=
  forall q, In q (manual_payments d) -> In (mp_id q) ids -> mp_status q = "completed".

(** What a run leaves outside the [manual_payments] table. *)
Definition ledger (d : database) : list wallet * list commission * list transaction :=
  (user_wallets d, commissions d, transactions d).

(** The commission log together with the referral edges it is computed from. *)
Definition audit (d : database) : list commission * list profile :=
  (commissions d, profiles d).

(** [m] leaves the commission log and the referral edges at [a0], whether it
    returns or raises, and however the store answers. *)
Definition keeps_audit {A : Type} (a0 : list commission * list profile) (m : M A) : Prop :=
  forall w, audit (store w) = a0 -> audit (final_db (m w)) = a0.

(** The store after the debit of a withdrawal, and after the debit and the
    record. *)
Definition debited (u : string) (amount : Q) (w : wallet) (d : database) : database :=
  fst (update_wallets (fun r => w_user_id r =? u)
         (set_order_income (order_income w - round2 amount)) d).

Definition recorded (u : string) (amount : Q) (w : wallet) (clk : Z) (d : database)
  : database :=
  fst (insert_transaction
         (fun id => mkTransaction id u (round2 amount)
                      (Some (round2 (float_mul amount FEE_RATE)))
                      "withdrawal" "pending" None "" clk)
         (debited u amount w d)).

(** ** Manual payments: [reject_manual_payment] *)

Definition mark_rejected (p : manual_payment) : manual_payment :=
  mkManualPayment (mp_id p) (mp_user_id p) (mp_amount p) (utr_number p)
    (mobile_number p) "rejected" (is_credited p).

(** The [for payment_record in response.data] loop. *)
Fixpoint reject_payments (rows : list manual_payment) : M unit :=
  match rows with
  | [] => ret tt
  | payment_record :: rest =>
      execute (update_manual_payments (fun r => Nat.eqb (mp_id r) (mp_id payment_record))
                 mark_rejected) [] ;;;
      reject_payments rest
  end.

Definition reject_manual_payment (utr_number : option string) : M response :=
  try_catch
    (if negb (truthy_str utr_number) then respond false 400
     else
       let utr := str_of utr_number in
       rows <- execute (select_pending_payments utr) [] ;;
       if negb (nonempty rows) then respond false 404
       else
         reject_payments rows ;;;
         respond true 200)
    (fun _ => respond false 500).

(** ** Eligibility query: [check_successful_investment] *)

Record investment_answer := mkInvestmentAnswer {
  hasInvested : bool;
  ia_status_code : nat
}.

Definition check_successful_investment (userId : option string) : M investment_answer :=
  try_catch
    (if negb (truthy_str userId) then ret (mkInvestmentAnswer false 400)
     else
       rows <- execute (select_investment (str_of userId)) [] ;;
       if nonempty rows then ret (mkInvestmentAnswer true 200)
       else ret (mkInvestmentAnswer false 200))
    (fun _ => ret (mkInvestmentAnswer false 500)).

(** ** Gateway orders: [create_razorpay_order] *)

Record order_request := mkOrderRequest {
  or_amount : option Q;
  or_userId : option string
}.

Record order_answer := mkOrderAnswer {
  oa_success : bool;
  oa_status_code : nat;
  oa_order_id : option string
}.

(** [int(float(amount_in_inr) * 100)]: the float product, truncated toward
    zero by [int]. *)
Definition amount_in_paisa (amount_in_inr : Q) : Z :=
  let paisa := float_mul amount_in_inr 100 in
  Z.quot (Qnum paisa) (Zpos (Qden paisa)).

Section Gateway.

(** [razorpay_client.order.create]: given the amount in paisa and the
    receipt id, the gateway answers with the id of the new order, or the
    call raises ([None]). *)
Variable order_create : Z -> string -> option string.

(** [receipt_id] is the [uuid.uuid4()] drawn by the handler. *)
Definition create_razorpay_order (receipt_id : string) (data : order_request)
  : M order_answer :=
  if negb (truthy_num (or_amount data) && truthy_str (or_userId data))
  then ret (mkOrderAnswer false 400 None)
  else
    match or_amount data with
    | None => ret (mkOrderAnswer false 400 None)
    | Some amount_in_inr =>
        let user_id := str_of (or_userId data) in
        try_catch
          (match order_create (amount_in_paisa amount_in_inr) receipt_id with
           | None => raise OtherError
           | Some order_id =>
               created <- clock ;;
               execute (insert_transaction
                          (fun id => mkTransaction id user_id amount_in_inr None
                                       "recharge" "pending" (Some order_id) ""
                                       created)) [] ;;;
               ret (mkOrderAnswer true 200 (Some order_id))
           end)
          (fun _ => ret (mkOrderAnswer false 500 None))
    end.

End Gateway.

(** ** Admin form: [admin_required], [update_withdrawal_status_internal],
    [process_withdrawal_action] *)

Inductive flash := FlashSuccess | FlashDanger | FlashWarning.

Inductive redirect := ToAdminLogin | ToAdminDashboard.

(** The decorator: without an admin session the wrapped view is not run. *)
Definition admin_required (admin_logged_in : bool) (f : M (flash * redirect))
  : M (flash * redirect) :=
  if admin_logged_in then f else ret (FlashWarning, ToAdminLogin).

Definition update_withdrawal_status_internal (req : status_update) : M response :=
  update_withdrawal_status_logic req.

Record admin_form := mkAdminForm {
  af_transaction_id : option nat;
  af_action : option string;
  af_admin_notes : string
}.

Definition status_of_action (action : string) : option string :=
  if action =? "complete" then Some "completed"
  else if action =? "reject" then Some "rejected"
  else None.

Definition process_withdrawal_action (admin_logged_in : bool) (form : admin_form)
  : M (flash * redirect) :=
  admin_required admin_logged_in
    (if negb (is_some (af_transaction_id form) && truthy_str (af_action form))
     then ret (FlashDanger, ToAdminDashboard)
     else
       match status_of_action (str_of (af_action form)) with
       | None => ret (FlashDanger, ToAdminDashboard)
       | Some new_status =>
           try_catch
             (response_tuple <-
                update_withdrawal_status_internal
                  (mkStatusUpdate (af_transaction_id form) (Some new_status)
                     (af_admin_notes form)) ;;
              if success response_tuple then ret (FlashSuccess, ToAdminDashboard)
              else ret (FlashDanger, ToAdminDashboard))
             (fun _ => ret (FlashDanger, ToAdminDashboard))
       end).

(** ** Invariants of runs *)

(** [m] keeps the property [P] of the store, whether it returns or raises,
    and however the store answers. *)
Definition preserves {A : Type} (P : database -> Prop) (m : M A) : Prop :=
  forall w, P (store w) -> P (final_db (m w)).

(** A wallet row without its [order_income], and without its [balance]. *)
Definition besides_order_income (w : wallet) : string * Q * Q * Q * Q * Q :=
  (w_user_id w, balance w, total_income w, total_referral_earnings w,
   pending_referral_bonus w, recharged_amount w).

Definition besides_balance (w : wallet) : string * Q * Q * Q * Q * Q :=
  (w_user_id w, order_income w, total_income w, total_referral_earnings w,
   pending_referral_bonus w, recharged_amount w).

Definition client_error (code : nat) : bool := Nat.leb 400 code && Nat.ltb code 500.

(** The store written by the rejection loop when every call answers
    normally. *)
Fixpoint reject_payments_effect (rows : list manual_payment) (d : database) : database :=
  match rows with
  | [] => d
  | p :: rest =>
      reject_payments_effect rest
        (fst (update_manual_payments (fun r => Nat.eqb (mp_id r) (mp_id p)) mark_rejected d))
  end.

(** Every row carrying one of the ids is [rejected]. *)
Definition rejected_ids (ids : list nat) (d : database) : Prop :=
  forall q, In q (manual_payments d) -> In (mp_id q) ids -> mp_status q = "rejected".

(** Every row is a row of [d0] or a rejected row. *)
Definition old_or_rejected (d0 d : database) : Prop :=
  forall q, In q (manual_payments d) ->
            In q (manual_payments d0) \/ mp_status q = "rejected".

(** Everything but the [manual_payments] table. *)
Definition outside_manual_payments (d : database)
  : list wallet * list transaction * list profile * list commission :=
  (user_wallets d, transactions d, profiles d, commissions d).

(** What a withdrawal request may not touch: every wallet column but
    [order_income], the wallet rows of the other users, and the tables of
    payments, profiles and commissions; transactions are only appended. *)
Definition withdrawal_frame (u : string) (d0 d : database) : Prop :=
  map besides_order_income (user_wallets d) = map besides_order_income (user_wallets d0)
  /\ (forall v, v <> u -> wallets_of v d = wallets_of v d0)
  /\ manual_payments d = manual_payments d0
  /\ profiles d = profiles d0
  /\ commissions d = commissions d0
  /\ exists appended, transactions d = transactions d0 ++ appended.

Definition order_income_nonnegative (d : database) : Prop :=
  forall w, In w (user_wallets d) -> (0 <= order_income w)%Q.

(** A run that, whenever it answers with a client error, has written
    nothing; and a run that never answers with a client error. *)
Definition writes_nothing_on_client_error (m : M response) : Prop :=
  forall w, match m w with
            | Done resp w' => client_error (status_code resp) = true -> store w' = store w
            | Raised _ _ => True
            end.

Definition no_client_error (m : M response) : Prop :=
  forall w, match m w with
            | Done resp _ => client_error (status_code resp) = false
            | Raised _ _ => True
            end.

(** Everything but the [transactions] table. *)
Definition outside_transactions (d : database)
  : list wallet * list manual_payment * list profile * list commission :=
  (user_wallets d, manual_payments d, profiles d, commissions d).

(** A transaction row without its status and admin notes. *)
Definition besides_status (t : transaction)
  : nat * string * Q * option Q * string * option string * Z :=
  (t_id t, t_user_id t, t_amount t, t_fee t, t_type t, payment_gateway_id t, created_at t).

(** What a resolution may not touch: every wallet column but [balance],
    every transaction column but status and notes (no row is added or
    removed), and the tables of payments, profiles and commissions. *)
Definition resolution_frame (d0 d : database) : Prop :=
  map besides_balance (user_wallets d) = map besides_balance (user_wallets d0)
  /\ map besides_status (transactions d) = map besides_status (transactions d0)
  /\ manual_payments d = manual_payments d0
  /\ profiles d = profiles d0
  /\ commissions d = commissions d0.

(** Every transaction row is a row of [d0] or carries one of the statuses. *)
Definition old_or_status (statuses : list string) (d0 d : database) : Prop :=
  forall t, In t (transactions d) ->
            In t (transactions d0) \/ In (t_status t) statuses.

(** ** Concrete stores used by the scenarios *)

Definition claim_db (pending : Q) : database :=
  mkDatabase [mkWallet "u1" 5 7 0 3 pending 0; mkWallet "u2" 1 1 1 1 1 1] [] [] [] [].


(** A user who has invested (one completed manual payment) and holds 500 of
    withdrawable [order_income]. *)
Definition investor_db : database :=
  mkDatabase
    [mkWallet "u1" 0 500 0 0 0 1000]
    []
    [mkManualPayment 1 "u1" 1000 "123456789012" "9876543210" "completed" true]
    [mkProfile "u1" None]
    [].

Definition withdraw_500 : withdrawal_request :=
  mkWithdrawal (Some "u1") (Some 500) (Some "card-1")
    (Some (mkBankDetails (Some "000111222333") (Some "SBI"))).

Definition reject_1 : status_update := mkStatusUpdate (Some 1%nat) (Some "rejected") "".

Definition after_withdrawal : database :=
  final_db (handle_withdrawal_request withdraw_500 (quiet investor_db 90000)).

Definition after_rejection : database :=
  final_db (update_withdrawal_status_logic reject_1 (quiet after_withdrawal 90100)).






(** The store raises on the fifth call of the request, the insert of the
    pending transaction; the four calls before it answer normally. *)
Definition insert_raises : list fault := [Normal; Normal; Normal; Normal; Throws].

(** The same insert answers with an empty response instead. *)
Definition insert_no_data : list fault := [Normal; Normal; Normal; Normal; NoEffect].

(** User [u1] referred [u2]; [u2] has submitted one manual payment of 1000
    under UTR 123456789012, and a gateway order [order_A] of 1000 is pending. *)
Definition referral_db : database :=
  mkDatabase
    [mkWallet "u1" 0 0 0 0 0 0; mkWallet "u2" 0 0 0 0 0 0]
    [mkTransaction 1 "u2" 1000 None "recharge" "pending" (Some "order_A") "" 50]
    [mkManualPayment 1 "u2" 1000 "123456789012" "9876543210" "pending" false]
    [mkProfile "u1" None; mkProfile "u2" (Some "u1")]
    [].

Definition the_utr : option string := Some "123456789012".

Definition resubmission : payment_submission :=
  mkSubmission (Some "u2") (Some 1000) the_utr (Some "9876543210").

(** Verify the UTR, receive the same UTR once more, verify again. *)
Definition after_first_verification : database :=
  final_db (admin_verify_manual_payment the_utr (quiet referral_db 100)).

Definition after_resubmission : database :=
  final_db (confirm_manual_payment resubmission (quiet after_first_verification 200)).

Definition after_second_verification : database :=
  final_db (admin_verify_manual_payment the_utr (quiet after_resubmission 300)).

(** A stand-in for the gateway's signature check. *)
Definition demo_signature_ok (order_id payment_id signature : string) : bool :=
  signature =? "signed".

Definition callback_A : razorpay_callback :=
  mkCallback (Some "order_A") (Some "pay_A") (Some "signed") (Some 1000) (Some "u2").

Definition forged_callback_A : razorpay_callback :=
  mkCallback (Some "order_A") (Some "pay_A") (Some "forged") (Some 1000) (Some "u2").

Definition after_first_callback : database :=
  final_db (verify_razorpay_payment demo_signature_ok callback_A (quiet referral_db 100)).

Definition after_second_callback : database :=
  final_db (verify_razorpay_payment demo_signature_ok callback_A
              (quiet after_first_callback 200)).


(** Three duplicate submissions of one payment, none credited yet. *)
Definition triple_db : database :=
  mkDatabase
    [mkWallet "u1" 0 0 0 0 0 0; mkWallet "u2" 0 0 0 0 0 0]
    []
    [mkManualPayment 1 "u2" 1000 "123456789012" "9876543210" "pending" false;
     mkManualPayment 2 "u2" 1000 "123456789012" "9876543210" "pending" false;
     mkManualPayment 3 "u2" 1000 "123456789012" "9876543210" "pending" false]
    [mkProfile "u1" None; mkProfile "u2" (Some "u1")]
    [].

(** A stand-in for the gateway's order creation: it accepts every positive
    amount and names the order [order_B]. *)
Definition demo_order_create (paisa : Z) (receipt : string) : option string :=
  if (0 <? paisa)%Z then Some "order_B" else None.

(** An investor with two withdrawal transactions of the current day (day
    two starts at 86400), one rejected and one completed. *)
Definition limit_db : database :=
  mkDatabase
    [mkWallet "u1" 0 500 0 0 0 1000]
    [mkTransaction 1 "u1" 100 (Some 12) "withdrawal" "rejected" None "" 87000;
     mkTransaction 2 "u1" 100 (Some 12) "withdrawal" "completed" None "" 88000]
    [mkManualPayment 1 "u1" 1000 "123456789012" "9876543210" "completed" true]
    [mkProfile "u1" None]
    [].

Definition sbi_account : bank_details := mkBankDetails (Some "000111222333") (Some "SBI").
(** * Properties *)

(** ** Rows of one user under a row-wise update *)

Lemma filter_update_rows {A : Type} (p q : A -> bool) (f : A -> A) (l : list A) :
  (forall r, q (f r) = q r) ->
  filter q (update_rows p f l) = update_rows p f (filter q l).
Proof.
  intros Hq. unfold update_rows.
  induction l as [|r l IH]; simpl; [reflexivity|].
  destruct (p r) eqn:Hp.
  - rewrite Hq. destruct (q r); simpl; rewrite ?Hp, IH; reflexivity.
  - destruct (q r); simpl; rewrite ?Hp, IH; reflexivity.
Qed.

Lemma update_rows_all {A : Type} (p : A -> bool) (f : A -> A) (l : list A) :
  (forall r, In r l -> p r = true) -> update_rows p f l = map f l.
Proof.
  intros H. unfold update_rows. apply map_ext_in.
  intros r Hr. rewrite (H r Hr). reflexivity.
Qed.

Lemma update_rows_none {A : Type} (p : A -> bool) (f : A -> A) (l : list A) :
  (forall r, In r l -> p r = false) -> update_rows p f l = l.
Proof.
  intros H. unfold update_rows.
  rewrite <- (map_id l) at 2. apply map_ext_in.
  intros r Hr. rewrite (H r Hr). reflexivity.
Qed.

Lemma updated_rows_nonempty {A : Type} (p : A -> bool) (f : A -> A) (l : list A) :
  nonempty (updated_rows p f l) = nonempty (filter p l).
Proof. unfold updated_rows. destruct (filter p l); reflexivity. Qed.

(** Updating the rows of user [u] with a function that keeps the owner
    rewrites exactly [u]'s rows. *)
Lemma wallets_of_update_same (u : string) (f : wallet -> wallet) (d : database) :
  (forall r, w_user_id (f r) = w_user_id r) ->
  wallets_of u (fst (update_wallets (fun r => w_user_id r =? u) f d))
  = map f (wallets_of u d).
Proof.
  intros Hf. unfold wallets_of, update_wallets. simpl.
  rewrite filter_update_rows by (intros r; rewrite Hf; reflexivity).
  apply update_rows_all.
  intros r Hr. apply filter_In in Hr. tauto.
Qed.

Lemma wallets_of_update_other (u v : string) (f : wallet -> wallet) (d : database) :
  (forall r, w_user_id (f r) = w_user_id r) ->
  v <> u ->
  wallets_of v (fst (update_wallets (fun r => w_user_id r =? u) f d))
  = wallets_of v d.
Proof.
  intros Hf Hvu. unfold wallets_of, update_wallets. simpl.
  rewrite filter_update_rows by (intros r; rewrite Hf; reflexivity).
  apply update_rows_none.
  intros r Hr. apply filter_In in Hr. destruct Hr as [_ Hr].
  apply String.eqb_eq in Hr. apply String.eqb_neq. congruence.
Qed.

Lemma wallets_of_owner (u : string) (d : database) (w : wallet) :
  In w (wallets_of u d) -> w_user_id w = u.
Proof.
  unfold wallets_of. intros H. apply filter_In in H.
  apply String.eqb_eq. tauto.
Qed.

Lemma truthy_str_some (s : string) : s <> "" -> truthy_str (Some s) = true.
Proof.
  intros H. unfold truthy_str. apply negb_true_iff. apply String.eqb_neq. exact H.
Qed.

(** A calm store call is the call. *)
Lemma execute_calm {A : Type} (run : database -> database * A) (empty : A)
  (d : database) (t : Z) :
  execute run empty (mkWorld d [] t)
  = Done (snd (run d)) (mkWorld (fst (run d)) [] t).
Proof. unfold execute. simpl. destruct (run d); reflexivity. Qed.

(** A store call never writes unless it answers normally. *)
Lemma execute_read_only {A : Type} (q : database -> A) (empty : A) (w : world) :
  final_db (execute (fun d => (d, q d)) empty w) = store w.
Proof.
  unfold execute. destruct (hd Normal (answers w)); reflexivity.
Qed.

(** A calm [.single()] call that finds its row. *)
Lemma bind_execute_single_calm {A B : Type} (run : database -> database * option A)
  (k : option A -> M B) (d : database) (t : Z) (r : A) :
  snd (run d) = Some r ->
  bind (execute_single run) k (mkWorld d [] t) = k (Some r) (mkWorld (fst (run d)) [] t).
Proof.
  intros H. unfold bind, execute_single. simpl.
  destruct (run d) as [d' a]. simpl in H. subst a. reflexivity.
Qed.

(** A [.single()] call that does not find exactly one row raises, however
    the store answers, and writes nothing. *)
Lemma bind_execute_single_missing {A B : Type} (run : database -> database * option A)
  (k : option A -> M B) (d : database) (fs : list fault) (t : Z) :
  snd (run d) = None ->
  bind (execute_single run) k (mkWorld d fs t)
  = Raised StoreError (mkWorld d (tl fs) t).
Proof.
  intros H. unfold bind, execute_single. simpl.
  destruct (hd Normal fs); try reflexivity.
  destruct (run d) as [d' a]. simpl in H. subst a. reflexivity.
Qed.

Lemma bind_select_wallet_calm {B : Type} (u : string) (k : option wallet -> M B)
  (d : database) (t : Z) (w : wallet) :
  wallets_of u d = [w] ->
  bind (execute_single (select_wallet u)) k (mkWorld d [] t) = k (Some w) (mkWorld d [] t).
Proof.
  intros H. apply (bind_execute_single_calm (select_wallet u)).
  unfold select_wallet. cbn [snd]. fold (wallets_of u d). rewrite H. reflexivity.
Qed.



(** ** Bonus claim *)

Lemma claim_wallet_owner (a b c : Q) (r : wallet) :
  w_user_id (claim_wallet a b c r) = w_user_id r.
Proof. reflexivity. Qed.

(** The run of a successful claim. *)
Lemma claim_referral_bonus_run (d : database) (u : string) (w : wallet) (t : Z) :
  u <> "" ->
  wallets_of u d = [w] ->
  Qle_bool (pending_referral_bonus w) 0 = false ->
  claim_referral_bonus (Some u) (quiet d t)
  = Done (mkResponse true 200)
      (quiet
         (fst (insert_transaction
                 (fun id => mkTransaction id u (pending_referral_bonus w) None
                              "bonus_referral_signup" "completed" None "" t)
                 (fst (update_wallets (fun r => w_user_id r =? u)
                         (claim_wallet
                            (balance w + pending_referral_bonus w)
                            (total_referral_earnings w + pending_referral_bonus w)
                            (order_income w + pending_referral_bonus w)) d))))
         t).
Proof.
  intros Hu Hw Hb.
  unfold claim_referral_bonus, quiet. rewrite (truthy_str_some u Hu).
  change (negb true) with false. cbv iota.
  unfold try_catch, str_of. rewrite (bind_select_wallet_calm u _ d t w Hw).
  rewrite Hb. unfold bind. rewrite execute_calm.
  change (snd (update_wallets ?p ?f d)) with (updated_rows p f (user_wallets d)).
  rewrite updated_rows_nonempty. fold (wallets_of u d). rewrite Hw.
  change (negb (nonempty [w])) with false. cbv iota beta.
  unfold clock. rewrite execute_calm. reflexivity.
Qed.


(** ** Withdrawal resolution *)


Lemma filter_nil_none {A : Type} (p : A -> bool) (l : list A) :
  filter p l = [] -> forall r, In r l -> p r = false.
Proof.
  intros H r Hr. destruct (p r) eqn:E; [|reflexivity].
  assert (Hin : In r (filter p l)) by (apply filter_In; split; assumption).
  rewrite H in Hin. destruct Hin.
Qed.

Ltac run :=
  unfold respond, credit_recharged_amount, mark_gateway_failed, missing_attribute;
  unfold bind, execute, execute_single, ret, try_catch, raise, clock, final_db,
    final_world, returned;
  cbn [store answers now fst snd
       select_transaction select_wallet select_profile update_wallets
       update_transactions update_manual_payments set_wallets set_transactions
       set_manual_payments set_commissions
       user_wallets transactions manual_payments profiles commissions].

(** The refund block reads the transactions and writes only wallets. *)
Lemma refund_withdrawal_transactions (tid : nat) (w : world) :
  transactions (final_db (refund_withdrawal tid w)) = transactions (store w).
Proof.
  destruct w as [d fs t].
  unfold refund_withdrawal. run.
  destruct (hd Normal fs); run; try reflexivity.
  destruct (single _) as [tr|]; run; [|reflexivity].
  destruct (hd Normal (tl fs)); run; try reflexivity.
  destruct (single _) as [wr|]; run; [|reflexivity].
  destruct (hd Normal (tl (tl fs))); run; reflexivity.
Qed.

Lemma refund_withdrawal_completes (tid : nat) (w : world) :
  (exists w', refund_withdrawal tid w = Done tt w')
  \/ (exists e w', refund_withdrawal tid w = Raised e w').
Proof.
  destruct (refund_withdrawal tid w) as [[] w'|e w']; eauto.
Qed.

(** Whenever resolution answers with a failure, no transaction row has been
    touched; this holds for every request and every way the store answers.
    The handler itself never raises. *)
Lemma resolve_failure_keeps_transactions (data : status_update) (w : world) :
  match update_withdrawal_status_logic data w with
  | Done resp w' =>
      success resp = false -> transactions (store w') = transactions (store w)
  | Raised _ _ => False
  end.
Proof.
  unfold update_withdrawal_status_logic, try_catch.
  destruct (su_transaction_id data) as [tid|]; [|run; intros; reflexivity].
  destruct (negb (truthy_str (su_status data))); [run; intros; reflexivity|].
  destruct (negb (str_in _ _)); [run; intros; reflexivity|].
  unfold bind at 1.
  assert (Hpre : transactions (final_db
     ((if str_in (str_of (su_status data)) ["rejected"; "failed"]
       then refund_withdrawal tid else ret tt) w)) = transactions (store w)).
  { destruct (str_in _ _); [apply refund_withdrawal_transactions | reflexivity]. }
  destruct ((if str_in (str_of (su_status data)) ["rejected"; "failed"]
             then refund_withdrawal tid else ret tt) w) as [[] w1|e w1];
    unfold final_db, final_world in Hpre; [|run; intros; exact Hpre].
  run. destruct (hd Normal (answers w1)).
  - rewrite updated_rows_nonempty.
    destruct (filter _ (transactions (store w1))) eqn:Hf; cbn [nonempty store transactions].
    + intros _. rewrite update_rows_none by (apply filter_nil_none; exact Hf).
      exact Hpre.
    + cbn [success]. discriminate.
  - cbn [nonempty]. intros; exact Hpre.
  - intros; exact Hpre.
Qed.

Lemma bind_ret {A B : Type} (a : A) (k : A -> M B) (w : world) :
  bind (ret a) k w = k a w.
Proof. reflexivity. Qed.

Lemma bind_assoc_calm {A B C : Type} (m : M A) (k : A -> M B) (h : B -> M C) (w : world) :
  bind (bind m k) h w = bind m (fun a => bind (k a) h) w.
Proof. unfold bind. destruct (m w); reflexivity. Qed.

Lemma bind_execute_calm {A B : Type} (run : database -> database * A) (empty : A)
  (k : A -> M B) (d : database) (t : Z) :
  bind (execute run empty) k (mkWorld d [] t)
  = k (snd (run d)) (mkWorld (fst (run d)) [] t).
Proof. unfold bind. rewrite execute_calm. reflexivity. Qed.

Lemma bind_clock {B : Type} (k : Z -> M B) (w : world) :
  bind clock k w = k (now w) w.
Proof. reflexivity. Qed.





(** C7.  The spec's scenario, on the code: a wallet with
    [order_income = 500] requests a withdrawal of 500 ([order_income] becomes
    0, a pending transaction with fee 60 is recorded); the admin rejects it.
    The claim has [order_income] back at 500; the code leaves [order_income]
    at 0 and adds the 500 to [balance]. *)
Theorem rejected_withdrawal_refund_misses_order_income :
  exists w0 w1 w2 t1,
    wallets_of "u1" investor_db = [w0]
    /\ wallets_of "u1" after_withdrawal = [w1]
    /\ wallets_of "u1" after_rejection = [w2]
    /\ transactions_by_id 1 after_withdrawal = [t1]
    /\ (order_income w0 == 500)%Q /\ (balance w0 == 0)%Q
    /\ (order_income w1 == 0)%Q /\ (balance w1 == 0)%Q
    /\ t_status t1 = "pending" /\ (t_amount t1 == 500)%Q
    /\ returned (update_withdrawal_status_logic reject_1 (quiet after_withdrawal 90100))
       = Some (mkResponse true 200)
    /\ map t_status (transactions_by_id 1 after_rejection) = ["rejected"]
    /\ (order_income w2 == 0)%Q /\ (balance w2 == 500)%Q
    /\ ~ (order_income w2 == order_income w0)%Q.
Proof.
  do 4 eexists.
  split; [vm_compute; reflexivity|].
  split; [vm_compute; reflexivity|].
  split; [vm_compute; reflexivity|].
  split; [vm_compute; reflexivity|].
  repeat split; try reflexivity; try (vm_compute; reflexivity).
  vm_compute. discriminate.
Qed.









(** ** Withdrawal request *)

Lemma set_order_income_owner (x : Q) (r : wallet) :
  w_user_id (set_order_income x r) = w_user_id r.
Proof. reflexivity. Qed.

Lemma truthy_num_pos (q : Q) : (0 < q)%Q -> truthy_num (Some q) = true.
Proof.
  intros H. unfold truthy_num. apply negb_true_iff.
  destruct (Qeq_bool q 0) eqn:E; [|reflexivity].
  apply Qeq_bool_eq in E. rewrite E in H. apply Qlt_irrefl in H. destruct H.
Qed.

Lemma Qle_bool_pos (q : Q) : (0 < q)%Q -> Qle_bool q 0 = false.
Proof.
  intros H. destruct (Qle_bool q 0) eqn:E; [|reflexivity].
  apply Qle_bool_iff in E. apply Qlt_not_le in H. contradiction.
Qed.

Lemma bind_execute_normal {A B : Type} (run : database -> database * A) (empty : A)
  (k : A -> M B) (d : database) (fs : list fault) (t : Z) :
  hd Normal fs = Normal ->
  bind (execute run empty) k (mkWorld d fs t)
  = k (snd (run d)) (mkWorld (fst (run d)) (tl fs) t).
Proof.
  intros H. unfold bind, execute. cbn [answers store now]. rewrite H.
  destruct (run d); reflexivity.
Qed.

Lemma bind_execute_no_effect {A B : Type} (run : database -> database * A) (empty : A)
  (k : A -> M B) (d : database) (fs : list fault) (t : Z) :
  hd Normal fs = NoEffect ->
  bind (execute run empty) k (mkWorld d fs t) = k empty (mkWorld d (tl fs) t).
Proof.
  intros H. unfold bind, execute. cbn [answers store now]. rewrite H. reflexivity.
Qed.

Lemma bind_execute_throws {A B : Type} (run : database -> database * A) (empty : A)
  (k : A -> M B) (d : database) (fs : list fault) (t : Z) :
  hd Normal fs = Throws ->
  bind (execute run empty) k (mkWorld d fs t) = Raised StoreError (mkWorld d (tl fs) t).
Proof.
  intros H. unfold bind, execute. cbn [answers store now]. rewrite H. reflexivity.
Qed.

Section WithdrawalRequest.

Variables (d : database) (u card : string) (amount : Q) (b : bank_details)
          (w : wallet) (clk : Z).

Hypothesis user_given : u <> "".
Hypothesis card_given : card <> "".
Hypothesis details_given : truthy_details (Some b) = true.
Hypothesis amount_positive : (0 < amount)%Q.
Hypothesis under_daily_limit : (List.length (withdrawals_today u clk d) < 2)%nat.
Hypothesis invested : has_investment u d = true.
Hypothesis wallet_row : wallets_of u d = [w].

(** A request that passes validation, the daily limit and the eligibility
    gate, and whose wallet is fetched, reaches step 2 with the store as it
    was. *)
Lemma withdrawal_passes_gates (fs : list fault) :
  hd Normal fs = Normal ->
  hd Normal (tl fs) = Normal ->
  hd Normal (tl (tl fs)) = Normal ->
  handle_withdrawal_request (mkWithdrawal (Some u) (Some amount) (Some card) (Some b))
    (mkWorld d fs clk)
  = try_catch (debit_and_record u amount (Some b) w) (fun _ => respond false 500)
      (mkWorld d (tl (tl (tl fs))) clk).
Proof.
  intros F1 F2 F3.
  unfold handle_withdrawal_request.
  cbn [wr_userId wr_amount wr_bankCardId wr_bankDetails].
  rewrite (truthy_str_some u user_given), (truthy_str_some card card_given),
    (truthy_num_pos amount amount_positive), details_given.
  cbn [andb negb]. rewrite (Qle_bool_pos amount amount_positive).
  cbn [str_of]. unfold try_catch.
  rewrite bind_clock. cbn [now]. rewrite (bind_execute_normal _ _ _ _ _ _ F1).
  fold (withdrawals_today u clk d).
  assert (L : Nat.leb 2 (List.length (withdrawals_today u clk d)) = false)
    by (apply Nat.leb_gt; exact under_daily_limit).
  rewrite L. unfold select_withdrawals_since at 1. cbn [fst].
  rewrite (bind_execute_normal _ _ _ _ _ _ F2).
  fold (has_investment u d). rewrite invested. cbn [negb].
  unfold select_investment at 1. cbn [fst].
  unfold bind at 1, execute_single. cbn [answers store now]. rewrite F3.
  unfold select_wallet. fold (wallets_of u d). rewrite wallet_row.
  reflexivity.
Qed.


Lemma debit_response_nonempty (x : Q) :
  nonempty (snd (update_wallets (fun r => w_user_id r =? u) (set_order_income x) d)) = true.
Proof.
  unfold update_wallets. cbn [snd]. rewrite updated_rows_nonempty.
  fold (wallets_of u d). rewrite wallet_row. reflexivity.
Qed.

(** Debit and record, both store calls answering normally. *)
Lemma debit_and_record_run (fs : list fault) :
  Qlt_bool (order_income w) (round2 amount) = false ->
  hd Normal fs = Normal ->
  hd Normal (tl fs) = Normal ->
  debit_and_record u amount (Some b) w (mkWorld d fs clk)
  = if is_some (accountNumber b)
    then Done (mkResponse true 200) (mkWorld (recorded u amount w clk d) (tl (tl fs)) clk)
    else Raised OtherError (mkWorld (recorded u amount w clk d) (tl (tl fs)) clk).
Proof.
  intros H F1 F2. unfold debit_and_record. rewrite H.
  rewrite (bind_execute_normal _ _ _ _ _ _ F1).
  rewrite debit_response_nonempty. cbn [negb].
  rewrite bind_clock. cbn [now].
  rewrite (bind_execute_normal _ _ _ _ _ _ F2).
  unfold insert_transaction at 1. cbn [snd nonempty negb].
  unfold withdrawal_notification, recorded, debited.
  destruct (is_some (accountNumber b)); reflexivity.
Qed.

(** The insert answers with no data: the compensating write puts the
    fetched [order_income] back. *)
Lemma debit_and_record_no_data (fs : list fault) :
  Qlt_bool (order_income w) (round2 amount) = false ->
  hd Normal fs = Normal ->
  hd Normal (tl fs) = NoEffect ->
  hd Normal (tl (tl fs)) = Normal ->
  debit_and_record u amount (Some b) w (mkWorld d fs clk)
  = Done (mkResponse false 500)
      (mkWorld (fst (update_wallets (fun r => w_user_id r =? u)
                       (set_order_income (order_income w)) (debited u amount w d)))
         (tl (tl (tl fs))) clk).
Proof.
  intros H F1 F2 F3. unfold debit_and_record. rewrite H.
  rewrite (bind_execute_normal _ _ _ _ _ _ F1).
  rewrite debit_response_nonempty. cbn [negb].
  rewrite bind_clock. cbn [now].
  rewrite (bind_execute_no_effect _ _ _ _ _ _ F2). cbn [nonempty negb].
  rewrite (bind_execute_normal _ _ _ _ _ _ F3). reflexivity.
Qed.

(** The insert raises: the exception leaves [debit_and_record] with the
    debit in place. *)
Lemma debit_and_record_raises (fs : list fault) :
  Qlt_bool (order_income w) (round2 amount) = false ->
  hd Normal fs = Normal ->
  hd Normal (tl fs) = Throws ->
  debit_and_record u amount (Some b) w (mkWorld d fs clk)
  = Raised StoreError (mkWorld (debited u amount w d) (tl (tl fs)) clk).
Proof.
  intros H F1 F2. unfold debit_and_record. rewrite H.
  rewrite (bind_execute_normal _ _ _ _ _ _ F1).
  rewrite debit_response_nonempty. cbn [negb].
  rewrite bind_clock. cbn [now].
  rewrite (bind_execute_throws _ _ _ _ _ _ F2). reflexivity.
Qed.

Lemma wallets_of_debited :
  wallets_of u (debited u amount w d) = [set_order_income (order_income w - round2 amount) w].
Proof.
  unfold debited.
  rewrite wallets_of_update_same by (intros; apply set_order_income_owner).
  rewrite wallet_row. reflexivity.
Qed.

End WithdrawalRequest.

(** Writing the fetched value back restores the wallet table. *)
Lemma restore_after_debit (d : database) (u : string) (amount : Q) (w : wallet) :
  wallets_of u d = [w] ->
  user_wallets (fst (update_wallets (fun r => w_user_id r =? u)
                       (set_order_income (order_income w))
                       (fst (update_wallets (fun r => w_user_id r =? u)
                               (set_order_income (order_income w - round2 amount)) d))))
  = user_wallets d.
Proof.
  intros wallet_row.
  unfold update_wallets. cbn [fst set_wallets user_wallets].
  unfold update_rows. rewrite map_map.
  rewrite <- (map_id (user_wallets d)) at 2.
  apply map_ext_in. intros r Hr.
  destruct (w_user_id r =? u) eqn:E.
  - cbn [set_order_income w_user_id]. rewrite E.
    assert (Hin : In r (wallets_of u d))
      by (unfold wallets_of; apply filter_In; split; assumption).
    rewrite wallet_row in Hin. destruct Hin as [<-|[]].
    destruct w; reflexivity.
  - rewrite E. reflexivity.
Qed.

Lemma Qlt_bool_iff (x y : Q) : Qlt_bool x y = true <-> (x < y)%Q.
Proof.
  unfold Qlt_bool. rewrite negb_true_iff. split.
  - intros H. apply Qnot_le_lt. intros Hle. apply Qle_bool_iff in Hle. congruence.
  - intros H. destruct (Qle_bool y x) eqn:E; [|reflexivity].
    apply Qle_bool_iff in E. apply Qlt_not_le in H. contradiction.
Qed.

Lemma Qlt_bool_false (x y : Q) : ~ (x < y)%Q -> Qlt_bool x y = false.
Proof.
  intros H. destruct (Qlt_bool x y) eqn:E; [|reflexivity].
  apply Qlt_bool_iff in E. contradiction.
Qed.



(** When the insert of the pending transaction answers with an empty
    response, the handler writes the fetched [order_income] back and answers
    500: the wallet table is as before the request. *)
Lemma withdrawal_record_no_data_restores (d : database) (u card : string) (amount : Q)
  (b : bank_details) (w : wallet) (clk : Z) (fs : list fault) :
  u <> "" ->
  card <> "" ->
  truthy_details (Some b) = true ->
  (0 < amount)%Q ->
  (List.length (withdrawals_today u clk d) < 2)%nat ->
  has_investment u d = true ->
  wallets_of u d = [w] ->
  ~ (order_income w < round2 amount)%Q ->
  let r := handle_withdrawal_request
             (mkWithdrawal (Some u) (Some amount) (Some card) (Some b))
             (mkWorld d (Normal :: Normal :: Normal :: Normal :: NoEffect :: Normal :: fs) clk) in
  returned r = Some (mkResponse false 500)
  /\ user_wallets (final_db r) = user_wallets d
  /\ transactions (final_db r) = transactions d.
Proof.
  intros Hu Hc Hb Ha Hl Hi Hw Hge r. subst r.
  apply Qlt_bool_false in Hge.
  rewrite (withdrawal_passes_gates d u card amount b w clk Hu Hc Hb Ha Hl Hi Hw)
    by reflexivity.
  cbn [tl]. unfold try_catch.
  rewrite (debit_and_record_no_data d u amount b w clk Hw _ Hge) by reflexivity.
  unfold final_db, final_world, returned. cbn [store].
  split; [reflexivity|]. split.
  - apply (restore_after_debit d u amount w Hw).
  - reflexivity.
Qed.

(** When the same insert raises, control passes to the handler's
    [except Exception] clause, which answers 500 and writes nothing: the
    debit stays and no transaction records it. *)
Lemma withdrawal_record_raise_keeps_debit (d : database) (u card : string) (amount : Q)
  (b : bank_details) (w : wallet) (clk : Z) (fs : list fault) :
  u <> "" ->
  card <> "" ->
  truthy_details (Some b) = true ->
  (0 < amount)%Q ->
  (List.length (withdrawals_today u clk d) < 2)%nat ->
  has_investment u d = true ->
  wallets_of u d = [w] ->
  ~ (order_income w < round2 amount)%Q ->
  let r := handle_withdrawal_request
             (mkWithdrawal (Some u) (Some amount) (Some card) (Some b))
             (mkWorld d (Normal :: Normal :: Normal :: Normal :: Throws :: fs) clk) in
  returned r = Some (mkResponse false 500)
  /\ wallets_of u (final_db r) = [set_order_income (order_income w - round2 amount) w]
  /\ transactions (final_db r) = transactions d.
Proof.
  intros Hu Hc Hb Ha Hl Hi Hw Hge r. subst r.
  apply Qlt_bool_false in Hge.
  rewrite (withdrawal_passes_gates d u card amount b w clk Hu Hc Hb Ha Hl Hi Hw)
    by reflexivity.
  cbn [tl]. unfold try_catch.
  rewrite (debit_and_record_raises d u amount b w clk Hw _ Hge) by reflexivity.
  unfold final_db, final_world, returned, respond, ret. cbn [store].
  split; [reflexivity|]. split.
  - apply (wallets_of_debited d u amount w Hw).
  - reflexivity.
Qed.

(** C6.  On the code: the investor with [order_income = 500] requests 500;
    the debit is written, then the insert of the pending transaction raises.
    The request is answered with error 500, no transaction is recorded, and
    [order_income] stays at 0 instead of being restored to 500.  Had the insert
    answered with an empty response instead, the handler would have restored
    the 500. *)
Theorem withdrawal_insert_exception_loses_debit :
  exists w0 w1 w2,
    wallets_of "u1" investor_db = [w0]
    /\ (order_income w0 == 500)%Q
    /\ returned (handle_withdrawal_request withdraw_500
                   (mkWorld investor_db insert_raises 90000))
       = Some (mkResponse false 500)
    /\ wallets_of "u1"
         (final_db (handle_withdrawal_request withdraw_500
                      (mkWorld investor_db insert_raises 90000)))
       = [w1]
    /\ (order_income w1 == 0)%Q
    /\ transactions
         (final_db (handle_withdrawal_request withdraw_500
                      (mkWorld investor_db insert_raises 90000)))
       = []
    /\ wallets_of "u1"
         (final_db (handle_withdrawal_request withdraw_500
                      (mkWorld investor_db insert_no_data 90000)))
       = [w2]
    /\ (order_income w2 == 500)%Q.
Proof.
  do 3 eexists.
  split; [vm_compute; reflexivity|].
  split; [vm_compute; reflexivity|].
  split; [vm_compute; reflexivity|].
  split; [vm_compute; reflexivity|].
  split; [vm_compute; reflexivity|].
  split; [vm_compute; reflexivity|].
  split; vm_compute; reflexivity.
Qed.

(** ** Commission cascade and credit *)

Lemma try_catch_done {A : Type} (m : M A) (h : exn -> M A) (w w' : world) (a : A) :
  m w = Done a w' -> try_catch m h w = Done a w'.
Proof. intros H. unfold try_catch. rewrite H. reflexivity. Qed.

Lemma referral_commission_calm (u : string) (amount : Q) (d : database) (t : Z) :
  referral_commission u amount (quiet d t) = Done tt (quiet (commission_effect u amount d) t).
Proof.
  unfold referral_commission, quiet, commission_effect, referrer_of, try_catch.
  destruct (snd (select_profile u d)) as [p|] eqn:E.
  - rewrite (bind_execute_single_calm _ _ _ _ p E).
    unfold select_profile at 1. cbn [fst].
    destruct (truthy_str (referrer_id p)).
    + rewrite bind_execute_calm. reflexivity.
    + reflexivity.
  - rewrite (bind_execute_single_missing _ _ _ _ _ E). reflexivity.
Qed.

Lemma credit_recharged_amount_calm (u : string) (amount : Q) (d : database) (t : Z) :
  credit_recharged_amount u amount (quiet d t)
  = Done tt (quiet (fst (increment_recharged_amount u amount d)) t).
Proof.
  unfold credit_recharged_amount, quiet. apply try_catch_done.
  rewrite bind_execute_calm. reflexivity.
Qed.

Lemma process_payments_calm (rows : list manual_payment) :
  forall (first : bool) (d : database) (t : Z),
    process_payments rows first (quiet d t)
    = Done tt (quiet (process_payments_effect rows first d) t).
Proof.
  induction rows as [|p rest IH]; intros first d t; [reflexivity|].
  cbn [process_payments process_payments_effect].
  destruct (is_credited p); [apply IH|].
  destruct (negb first).
  - unfold quiet at 1. rewrite bind_execute_calm.
    fold (quiet (fst (update_manual_payments (fun r => Nat.eqb (mp_id r) (mp_id p))
                        mark_completed_credited d)) t).
    unfold bind at 1. rewrite referral_commission_calm.
    unfold bind at 1. rewrite credit_recharged_amount_calm.
    apply IH.
  - unfold quiet at 1. rewrite bind_execute_calm. apply IH.
Qed.

Lemma admin_verify_manual_payment_calm (utr : string) (d : database) (t : Z) :
  utr <> "" ->
  admin_verify_manual_payment (Some utr) (quiet d t)
  = if nonempty (pending_group utr d)
    then Done (mkResponse true 200)
           (quiet (process_payments_effect (pending_group utr d) false d) t)
    else Done (mkResponse false 404) (quiet d t).
Proof.
  intros Hu. unfold admin_verify_manual_payment.
  rewrite (truthy_str_some utr Hu). cbn [negb str_of].
  unfold try_catch, quiet at 1. rewrite bind_execute_calm.
  fold (pending_group utr d). unfold select_pending_payments at 1. cbn [fst].
  destruct (nonempty (pending_group utr d)); cbn [negb].
  - fold (quiet d t). unfold bind. rewrite process_payments_calm. reflexivity.
  - reflexivity.
Qed.

(** *** One user's wallet rows under the two stored procedures *)

Lemma wallets_of_commission_same (r : string) (x : Q) (d : database) :
  wallets_of r (fst (increment_referral_commission r x d))
  = map (add_commission x) (wallets_of r d).
Proof.
  unfold increment_referral_commission. cbn [fst].
  unfold wallets_of, set_wallets. cbn [user_wallets].
  rewrite filter_update_rows by reflexivity.
  apply update_rows_all. intros w Hw. apply filter_In in Hw. tauto.
Qed.

Lemma wallets_of_commission_other (r v : string) (x : Q) (d : database) :
  v <> r ->
  wallets_of v (fst (increment_referral_commission r x d)) = wallets_of v d.
Proof.
  intros Hv. unfold increment_referral_commission. cbn [fst].
  unfold wallets_of, set_wallets. cbn [user_wallets].
  rewrite filter_update_rows by reflexivity.
  apply update_rows_none. intros w Hw. apply filter_In in Hw. destruct Hw as [_ Hw].
  apply String.eqb_eq in Hw. apply String.eqb_neq. congruence.
Qed.

Lemma wallets_of_recharge_same (u : string) (x : Q) (d : database) :
  wallets_of u (fst (increment_recharged_amount u x d))
  = map (add_recharge x) (wallets_of u d).
Proof.
  unfold increment_recharged_amount. cbn [fst].
  unfold wallets_of, set_wallets. cbn [user_wallets].
  rewrite filter_update_rows by reflexivity.
  apply update_rows_all. intros w Hw. apply filter_In in Hw. tauto.
Qed.

Lemma wallets_of_recharge_other (u v : string) (x : Q) (d : database) :
  v <> u ->
  wallets_of v (fst (increment_recharged_amount u x d)) = wallets_of v d.
Proof.
  intros Hv. unfold increment_recharged_amount. cbn [fst].
  unfold wallets_of, set_wallets. cbn [user_wallets].
  rewrite filter_update_rows by reflexivity.
  apply update_rows_none. intros w Hw. apply filter_In in Hw. destruct Hw as [_ Hw].
  apply String.eqb_eq in Hw. apply String.eqb_neq. congruence.
Qed.

(** The recharge increment never touches the two commission-fed fields. *)
Lemma recharge_keeps_commission_fields (u v : string) (x : Q) (d : database) (w : wallet) :
  wallets_of v d = [w] ->
  exists w', wallets_of v (fst (increment_recharged_amount u x d)) = [w']
             /\ order_income w' = order_income w
             /\ total_referral_earnings w' = total_referral_earnings w.
Proof.
  intros Hw. destruct (String.eqb_spec v u) as [->|Hne].
  - rewrite wallets_of_recharge_same, Hw. eexists. split; [reflexivity|]. split; reflexivity.
  - rewrite wallets_of_recharge_other, Hw by exact Hne.
    eexists. split; [reflexivity|]. split; reflexivity.
Qed.

(** *** The credit of one payment: commission block, then wallet step *)

Lemma credit_effect_commissions (u : string) (a : Q) (d : database) :
  commissions (credit_effect u a d) = commissions d.
Proof.
  unfold credit_effect, commission_effect.
  destruct (truthy_str (referrer_of u d)); reflexivity.
Qed.

Lemma credit_effect_transactions (u : string) (a : Q) (d : database) :
  transactions (credit_effect u a d) = transactions d.
Proof.
  unfold credit_effect, commission_effect.
  destruct (truthy_str (referrer_of u d)); reflexivity.
Qed.

Lemma credit_effect_referrer_wallet (u r : string) (a : Q) (d : database) (w : wallet) :
  referrer_of u d = Some r ->
  r <> "" ->
  wallets_of r d = [w] ->
  exists w', wallets_of r (credit_effect u a d) = [w']
             /\ order_income w' = (order_income w + float_mul a COMMISSION_RATE)%Q
             /\ total_referral_earnings w'
                = (total_referral_earnings w + float_mul a COMMISSION_RATE)%Q.
Proof.
  intros Hr Hne Hw. unfold credit_effect, commission_effect.
  rewrite Hr, (truthy_str_some r Hne). cbn [str_of].
  set (d1 := fst (increment_referral_commission _ _ _)).
  assert (H1 : wallets_of r d1 = [add_commission (float_mul a COMMISSION_RATE) w]).
  { unfold d1. rewrite wallets_of_commission_same, Hw. reflexivity. }
  destruct (recharge_keeps_commission_fields u r a d1 _ H1) as [w' [E [E1 E2]]].
  exists w'. split; [exact E|]. rewrite E1, E2. split; reflexivity.
Qed.

Lemma credit_effect_recharged (u : string) (a : Q) (d : database) (w : wallet) :
  wallets_of u d = [w] ->
  exists w', wallets_of u (credit_effect u a d) = [w']
             /\ recharged_amount w' = (recharged_amount w + a)%Q.
Proof.
  intros Hw. unfold credit_effect. rewrite wallets_of_recharge_same.
  unfold commission_effect.
  destruct (truthy_str (referrer_of u d)).
  - destruct (String.eqb_spec u (str_of (referrer_of u d))) as [E|Hne].
    + rewrite <- E. rewrite wallets_of_commission_same, Hw.
      eexists. split; [reflexivity|reflexivity].
    + rewrite wallets_of_commission_other, Hw by exact Hne.
      eexists. split; [reflexivity|reflexivity].
  - rewrite Hw. eexists. split; reflexivity.
Qed.

(** The credit reads wallets, profiles and commissions only. *)
Lemma credit_effect_frame (u : string) (a : Q) (d : database) (ps : list manual_payment) :
  credit_effect u a (set_manual_payments d ps)
  = set_manual_payments (credit_effect u a d) ps.
Proof.
  unfold credit_effect, commission_effect, referrer_of, select_profile.
  cbn [snd set_manual_payments profiles].
  destruct (truthy_str _); reflexivity.
Qed.

Lemma credit_effect_manual_payments (u : string) (a : Q) (d : database) :
  manual_payments (credit_effect u a d) = manual_payments d.
Proof.
  unfold credit_effect, commission_effect.
  destruct (truthy_str _); reflexivity.
Qed.

Lemma credit_effect_profiles (u : string) (a : Q) (d : database) :
  profiles (credit_effect u a d) = profiles d.
Proof.
  unfold credit_effect, commission_effect.
  destruct (truthy_str _); reflexivity.
Qed.

(** *** The verification loop *)

(** Once the first payment has been processed the loop only marks rows. *)
Lemma process_payments_effect_marks_only (rows : list manual_payment) :
  forall d, ledger (process_payments_effect rows true d) = ledger d
            /\ profiles (process_payments_effect rows true d) = profiles d.
Proof.
  induction rows as [|p rest IH]; intros d; [split; reflexivity|].
  cbn [process_payments_effect negb].
  destruct (is_credited p); [apply IH|].
  destruct (IH (fst (update_manual_payments (fun r => Nat.eqb (mp_id r) (mp_id p))
                       mark_completed d))) as [H1 H2].
  rewrite H1, H2. split; reflexivity.
Qed.

(** Rows already credited are passed over. *)
Lemma process_payments_effect_skips (pre rows : list manual_payment) (first : bool)
  (d : database) :
  Forall (fun p => is_credited p = true) pre ->
  process_payments_effect (pre ++ rows) first d = process_payments_effect rows first d.
Proof.
  induction 1 as [|p pre Hp _ IH]; [reflexivity|].
  cbn [app process_payments_effect]. rewrite Hp. exact IH.
Qed.

(** One run of the loop credits the first row that is not yet credited, and
    that row only. *)
Lemma process_payments_effect_credits_once (pre rest : list manual_payment)
  (p : manual_payment) (d : database) :
  Forall (fun q => is_credited q = true) pre ->
  is_credited p = false ->
  ledger (process_payments_effect (pre ++ p :: rest) false d)
  = ledger (credit_effect (mp_user_id p) (mp_amount p) d).
Proof.
  intros Hpre Hp. rewrite process_payments_effect_skips by exact Hpre.
  cbn [process_payments_effect negb]. rewrite Hp.
  destruct (process_payments_effect_marks_only rest
              (credit_effect (mp_user_id p) (mp_amount p)
                 (fst (update_manual_payments (fun r => Nat.eqb (mp_id r) (mp_id p))
                         mark_completed_credited d)))) as [H _].
  rewrite H. unfold update_manual_payments. cbn [fst].
  rewrite credit_effect_frame. reflexivity.
Qed.

(** A group whose rows are all credited already is left alone. *)
Lemma process_payments_effect_all_credited (rows : list manual_payment) (first : bool)
  (d : database) :
  Forall (fun p => is_credited p = true) rows ->
  process_payments_effect rows first d = d.
Proof.
  intros H. rewrite <- (app_nil_r rows).
  rewrite process_payments_effect_skips by exact H. reflexivity.
Qed.

Lemma completed_ids_update (ids : list nat) (P : manual_payment -> bool)
  (f : manual_payment -> manual_payment) (d : database) :
  (forall r, mp_id (f r) = mp_id r /\ mp_status (f r) = "completed") ->
  completed_ids ids d ->
  completed_ids ids (fst (update_manual_payments P f d)).
Proof.
  intros Hf H q Hq Hid. unfold update_manual_payments in Hq.
  cbn [fst set_manual_payments manual_payments] in Hq.
  unfold update_rows in Hq. apply in_map_iff in Hq. destruct Hq as [r [Hr Hin]].
  destruct (P r).
  - subst q. apply Hf.
  - subst q. apply H; assumption.
Qed.

Lemma completed_ids_marked (id : nat) (f : manual_payment -> manual_payment) (d : database) :
  (forall r, mp_id (f r) = mp_id r /\ mp_status (f r) = "completed") ->
  completed_ids [id] (fst (update_manual_payments (fun r => Nat.eqb (mp_id r) id) f d)).
Proof.
  intros Hf q Hq Hid. unfold update_manual_payments in Hq.
  cbn [fst set_manual_payments manual_payments] in Hq.
  unfold update_rows in Hq. apply in_map_iff in Hq. destruct Hq as [r [Hr Hin]].
  destruct (Nat.eqb (mp_id r) id) eqn:E.
  - subst q. apply Hf.
  - subst q. destruct Hid as [Hid|[]]. apply Nat.eqb_neq in E. congruence.
Qed.

Lemma mark_completed_spec (r : manual_payment) :
  mp_id (mark_completed r) = mp_id r /\ mp_status (mark_completed r) = "completed".
Proof. split; reflexivity. Qed.

Lemma mark_completed_credited_spec (r : manual_payment) :
  mp_id (mark_completed_credited r) = mp_id r
  /\ mp_status (mark_completed_credited r) = "completed".
Proof. split; reflexivity. Qed.

Lemma completed_ids_credit (ids : list nat) (u : string) (a : Q) (d : database) :
  completed_ids ids d -> completed_ids ids (credit_effect u a d).
Proof.
  intros H q Hq. rewrite credit_effect_manual_payments in Hq. apply H. exact Hq.
Qed.

Lemma process_payments_effect_keeps_completed (ids : list nat) (rows : list manual_payment) :
  forall first d,
    completed_ids ids d -> completed_ids ids (process_payments_effect rows first d).
Proof.
  induction rows as [|p rest IH]; intros first d H; [exact H|].
  cbn [process_payments_effect].
  destruct (is_credited p); [apply IH; exact H|].
  destruct (negb first); apply IH.
  - apply completed_ids_credit.
    apply completed_ids_update; [apply mark_completed_credited_spec | exact H].
  - apply completed_ids_update; [apply mark_completed_spec | exact H].
Qed.

(** Every row of the group that was not credited before ends [completed]. *)
Lemma process_payments_effect_completes (rows : list manual_payment) :
  forall first d p,
    In p rows -> is_credited p = false ->
    completed_ids [mp_id p] (process_payments_effect rows first d).
Proof.
  induction rows as [|r rest IH]; intros first d p Hin Hp; [destruct Hin|].
  cbn [process_payments_effect].
  destruct Hin as [->|Hin].
  - rewrite Hp. destruct (negb first); apply process_payments_effect_keeps_completed.
    + apply completed_ids_credit.
      apply completed_ids_marked. apply mark_completed_credited_spec.
    + apply completed_ids_marked. apply mark_completed_spec.
  - destruct (is_credited r); [apply IH; assumption|].
    destruct (negb first); apply IH; assumption.
Qed.

(** ** Manual payment verification *)

(** C1.  On the code, two duplicate events for one external reference credit
    the wallet twice.  Manual path: the UTR is verified (credit of 1000), the
    same UTR is submitted again and verified again: [recharged_amount] of the
    payer stands at 2000 and two rows of the UTR are marked credited.  Gateway
    path: the same signed callback for one order id delivered twice; the
    second delivery finds no transaction carrying the order id any more and
    is answered 500, after it has credited the wallet again: 2000. *)
Theorem duplicate_events_credit_twice :
  (exists w0 w1 w2,
     wallets_of "u2" referral_db = [w0]
     /\ wallets_of "u2" after_first_verification = [w1]
     /\ wallets_of "u2" after_second_verification = [w2]
     /\ (recharged_amount w0 == 0)%Q
     /\ (recharged_amount w1 == 1000)%Q
     /\ (recharged_amount w2 == 2000)%Q
     /\ map is_credited (payments_of "123456789012" after_second_verification)
        = [true; true])
  /\
  (exists w1 w2,
     wallets_of "u2" after_first_callback = [w1]
     /\ wallets_of "u2" after_second_callback = [w2]
     /\ (recharged_amount w1 == 1000)%Q
     /\ (recharged_amount w2 == 2000)%Q
     /\ returned (verify_razorpay_payment demo_signature_ok callback_A
                    (quiet referral_db 100))
        = Some (mkResponse true 200)
     /\ returned (verify_razorpay_payment demo_signature_ok callback_A
                    (quiet after_first_callback 200))
        = Some (mkResponse false 500)).
Proof.
  split.
  - do 3 eexists.
    split; [vm_compute; reflexivity|].
    split; [vm_compute; reflexivity|].
    split; [vm_compute; reflexivity|].
    repeat split; vm_compute; reflexivity.
  - do 2 eexists.
    split; [vm_compute; reflexivity|].
    split; [vm_compute; reflexivity|].
    repeat split; vm_compute; reflexivity.
Qed.


(** ** The commission log under arbitrary store answers *)

Section KeepsAudit.

Variable a0 : list commission * list profile.

Lemma keeps_audit_ret {A : Type} (a : A) : keeps_audit a0 (ret a).
Proof. intros w H. exact H. Qed.

Lemma keeps_audit_raise {A : Type} (e : exn) : keeps_audit a0 (@raise A e).
Proof. intros w H. exact H. Qed.

Lemma keeps_audit_bind {A B : Type} (m : M A) (k : A -> M B) :
  keeps_audit a0 m -> (forall a, keeps_audit a0 (k a)) -> keeps_audit a0 (bind m k).
Proof.
  intros Hm Hk w H. unfold bind. specialize (Hm w H).
  destruct (m w) as [a w'|e w']; [apply Hk; exact Hm | exact Hm].
Qed.

Lemma keeps_audit_try_catch {A : Type} (m : M A) (h : exn -> M A) :
  keeps_audit a0 m -> (forall e, keeps_audit a0 (h e)) -> keeps_audit a0 (try_catch m h).
Proof.
  intros Hm Hh w H. unfold try_catch. specialize (Hm w H).
  destruct (m w) as [a w'|e w']; [exact Hm | apply Hh; exact Hm].
Qed.

Lemma keeps_audit_execute {A : Type} (run : database -> database * A) (empty : A) :
  (forall d, audit (fst (run d)) = audit d) -> keeps_audit a0 (execute run empty).
Proof.
  intros Hrun w H. unfold execute, final_db.
  destruct (hd Normal (answers w)).
  - specialize (Hrun (store w)). destruct (run (store w)) as [d' a].
    cbn [final_world store fst] in *. congruence.
  - exact H.
  - exact H.
Qed.

Lemma keeps_audit_execute_single {A : Type} (run : database -> database * option A) :
  (forall d, audit (fst (run d)) = audit d) -> keeps_audit a0 (execute_single run).
Proof.
  intros Hrun w H. unfold execute_single, final_db.
  destruct (hd Normal (answers w)).
  - specialize (Hrun (store w)). destruct (run (store w)) as [d' [r|]].
    + cbn [final_world store fst] in *. congruence.
    + exact H.
  - exact H.
  - exact H.
Qed.

(** What follows a raise is not run. *)
Lemma keeps_audit_bind_raise {A B : Type} (e : exn) (k : A -> M B) :
  keeps_audit a0 (bind (raise e) k).
Proof. intros w H. exact H. Qed.

Lemma keeps_audit_if {A : Type} (c : bool) (m1 m2 : M A) :
  keeps_audit a0 m1 -> keeps_audit a0 m2 -> keeps_audit a0 (if c then m1 else m2).
Proof. destruct c; tauto. Qed.

End KeepsAudit.

(** The commission block never writes the commission log: the insert comes
    after the read of [status_code], which raises. *)
Lemma referral_commission_keeps_audit (a0 : list commission * list profile)
  (u : string) (a : Q) :
  keeps_audit a0 (referral_commission u a).
Proof.
  unfold referral_commission.
  apply keeps_audit_try_catch; [|intros; apply keeps_audit_ret].
  apply keeps_audit_bind; [apply keeps_audit_execute_single; reflexivity|].
  intros referrer_response.
  apply keeps_audit_if; [|apply keeps_audit_ret].
  apply keeps_audit_bind; [apply keeps_audit_execute; reflexivity|].
  intros commission_rpc_response.
  unfold rpc_status_code, missing_attribute. apply keeps_audit_bind_raise.
Qed.

Lemma credit_recharged_amount_keeps_audit (a0 : list commission * list profile)
  (u : string) (a : Q) :
  keeps_audit a0 (credit_recharged_amount u a).
Proof.
  unfold credit_recharged_amount.
  apply keeps_audit_try_catch.
  - apply keeps_audit_bind; [|intros; apply keeps_audit_ret].
    apply keeps_audit_execute. reflexivity.
  - intros. apply keeps_audit_raise.
Qed.

Lemma mark_gateway_failed_keeps_audit (a0 : list commission * list profile) (o : string) :
  keeps_audit a0 (mark_gateway_failed o).
Proof.
  unfold mark_gateway_failed.
  apply keeps_audit_bind; [|intros; apply keeps_audit_ret].
  apply keeps_audit_execute. reflexivity.
Qed.

Lemma process_payments_keeps_audit (a0 : list commission * list profile)
  (rows : list manual_payment) :
  forall first, keeps_audit a0 (process_payments rows first).
Proof.
  induction rows as [|p rest IH]; intros first; [apply keeps_audit_ret|].
  cbn [process_payments].
  apply keeps_audit_if; [apply IH|].
  apply keeps_audit_if.
  - apply keeps_audit_bind; [apply keeps_audit_execute; reflexivity|]. intros _.
    apply keeps_audit_bind; [apply referral_commission_keeps_audit|]. intros _.
    apply keeps_audit_bind; [apply credit_recharged_amount_keeps_audit|]. intros _.
    apply IH.
  - apply keeps_audit_bind; [apply keeps_audit_execute; reflexivity|]. intros _.
    apply IH.
Qed.

(** No verification run writes the commission log, however the store
    answers. *)
Lemma admin_verify_manual_payment_keeps_audit (a0 : list commission * list profile)
  (utr : option string) :
  keeps_audit a0 (admin_verify_manual_payment utr).
Proof.
  unfold admin_verify_manual_payment.
  apply keeps_audit_try_catch; [|intros; apply keeps_audit_ret].
  apply keeps_audit_if; [apply keeps_audit_ret|].
  apply keeps_audit_bind; [apply keeps_audit_execute; reflexivity|]. intros rows.
  apply keeps_audit_if; [apply keeps_audit_ret|].
  apply keeps_audit_bind; [apply process_payments_keeps_audit|]. intros _.
  apply keeps_audit_ret.
Qed.

(** No gateway callback writes the commission log, however the store
    answers and whatever the signature check says. *)
Lemma verify_razorpay_payment_keeps_audit (a0 : list commission * list profile)
  (signature_ok : string -> string -> string -> bool) (data : razorpay_callback) :
  keeps_audit a0 (verify_razorpay_payment signature_ok data).
Proof.
  unfold verify_razorpay_payment.
  apply keeps_audit_if; [apply keeps_audit_ret|].
  destruct (rc_amount data) as [amount|]; [|apply keeps_audit_ret].
  apply keeps_audit_try_catch.
  - apply keeps_audit_bind.
    { unfold verify_payment_signature.
      apply keeps_audit_if; [apply keeps_audit_ret | apply keeps_audit_raise]. }
    intros _. apply keeps_audit_bind; [apply referral_commission_keeps_audit|].
    intros _. apply keeps_audit_bind; [apply credit_recharged_amount_keeps_audit|].
    intros _. apply keeps_audit_bind; [apply keeps_audit_execute; reflexivity|].
    intros rows. apply keeps_audit_bind.
    { apply keeps_audit_if; [apply keeps_audit_raise | apply keeps_audit_ret]. }
    intros _. apply keeps_audit_bind; [apply keeps_audit_execute_single; reflexivity|].
    intros _. apply keeps_audit_ret.
  - intros e.
    destruct e;
      (apply keeps_audit_bind;
       [apply mark_gateway_failed_keeps_audit | intros; apply keeps_audit_ret]).
Qed.

(** The run of an accepted gateway callback, the store answering normally:
    a transaction carries the order id and the payer has a wallet row. *)
Lemma verify_razorpay_payment_calm (signature_ok : string -> string -> string -> bool)
  (o p s u : string) (amount : Q) (d : database) (w : wallet) (t : Z) :
  o <> "" -> p <> "" -> s <> "" -> u <> "" -> ~ (amount == 0)%Q ->
  signature_ok o p s = true ->
  nonempty (filter (fun r => opt_str_eqb (payment_gateway_id r) o) (transactions d)) = true ->
  wallets_of u d = [w] ->
  verify_razorpay_payment signature_ok
    (mkCallback (Some o) (Some p) (Some s) (Some amount) (Some u)) (quiet d t)
  = Done (mkResponse true 200)
      (quiet (fst (update_transactions (fun r => opt_str_eqb (payment_gateway_id r) o)
                     (complete_gateway_transaction p) (credit_effect u amount d)))
         t).
Proof.
  intros Ho Hp Hs Hu Ha Hsig Hrow Hw. unfold verify_razorpay_payment.
  cbn [razorpay_order_id razorpay_payment_id razorpay_signature rc_amount rc_userId].
  rewrite (truthy_str_some o Ho), (truthy_str_some p Hp), (truthy_str_some s Hs),
    (truthy_str_some u Hu).
  assert (Hn : truthy_num (Some amount) = true).
  { unfold truthy_num. apply negb_true_iff.
    destruct (Qeq_bool amount 0) eqn:E; [|reflexivity].
    apply Qeq_bool_eq in E. contradiction. }
  rewrite Hn. cbn [andb negb str_of].
  apply try_catch_done.
  unfold verify_payment_signature. rewrite Hsig. rewrite bind_ret.
  unfold bind at 1. rewrite referral_commission_calm.
  unfold bind at 1. rewrite credit_recharged_amount_calm.
  fold (credit_effect u amount d).
  unfold quiet. rewrite bind_execute_calm.
  unfold update_transactions at 1. cbn [snd].
  rewrite updated_rows_nonempty, credit_effect_transactions, Hrow.
  cbn [negb]. rewrite bind_ret.
  destruct (credit_effect_recharged u amount d w Hw) as [w' [Hw' _]].
  rewrite (bind_select_wallet_calm u _ _ t w'); [reflexivity|].
  unfold update_transactions. cbn [fst]. unfold wallets_of, set_transactions.
  cbn [user_wallets]. exact Hw'.
Qed.

Lemma wallets_of_ledger (r : string) (d1 d2 : database) :
  ledger d1 = ledger d2 -> wallets_of r d1 = wallets_of r d2.
Proof.
  unfold ledger, wallets_of. intros H. inversion H as [[Hw Hc Ht]]. rewrite Hw. reflexivity.
Qed.

(** C3.  On the code: user [u2], referred by [u1], is credited 1000, once by
    an accepted gateway callback and once by a manual verification.  Either
    way the referrer's [order_income] and [total_referral_earnings] rise
    from 0 to 100, the store answering normally, but the commission log
    stays empty.  No run of either handler ever appends a commission row,
    whatever the request and however the store answers: the insert is
    placed after the read of the RPC response's [status_code]. *)
Theorem commission_is_credited_but_not_logged :
  referrer_of "u2" referral_db = Some "u1"
  /\ commissions referral_db = []
  /\ (exists w0 w1,
        wallets_of "u1" referral_db = [w0]
        /\ wallets_of "u1" after_first_callback = [w1]
        /\ returned (verify_razorpay_payment demo_signature_ok callback_A
                       (quiet referral_db 100))
           = Some (mkResponse true 200)
        /\ (order_income w0 == 0)%Q /\ (total_referral_earnings w0 == 0)%Q
        /\ (order_income w1 == 100)%Q /\ (total_referral_earnings w1 == 100)%Q
        /\ commissions after_first_callback = [])
  /\ (exists w1,
        wallets_of "u1" after_first_verification = [w1]
        /\ returned (admin_verify_manual_payment the_utr (quiet referral_db 100))
           = Some (mkResponse true 200)
        /\ (order_income w1 == 100)%Q /\ (total_referral_earnings w1 == 100)%Q
        /\ commissions after_first_verification = [])
  /\ (forall (signature_ok : string -> string -> string -> bool) (data : razorpay_callback)
             (w : world),
        commissions (final_db (verify_razorpay_payment signature_ok data w))
        = commissions (store w))
  /\ (forall (utr : option string) (w : world),
        commissions (final_db (admin_verify_manual_payment utr w))
        = commissions (store w)).
Proof.
  split; [vm_compute; reflexivity|].
  split; [reflexivity|].
  split.
  { do 2 eexists.
    split; [vm_compute; reflexivity|].
    split; [vm_compute; reflexivity|].
    repeat split; vm_compute; reflexivity. }
  split.
  { eexists.
    split; [vm_compute; reflexivity|].
    repeat split; vm_compute; reflexivity. }
  split.
  - intros sig data w.
    pose proof (verify_razorpay_payment_keeps_audit (audit (store w)) sig data w eq_refl)
      as K.
    unfold audit in K. inversion K. reflexivity.
  - intros utr w.
    pose proof (admin_verify_manual_payment_keeps_audit (audit (store w)) utr w eq_refl)
      as K.
    unfold audit in K. inversion K. reflexivity.
Qed.

(** ** Rejected gateway callbacks *)

(** C10.  A gateway callback carrying all its fields whose signature check
    fails: no wallet row and no commission row changes, however the store
    answers; the store answering normally, every transaction whose
    [payment_gateway_id] is the order id is marked [failed], the other
    transactions are left alone, and the explicit failure 400 is returned. *)
Theorem invalid_signature_marks_failed
  (signature_ok : string -> string -> string -> bool) (o p s u : string) (A : Q)
  (d : database) :
  o <> "" -> p <> "" -> s <> "" -> u <> "" -> ~ (A == 0)%Q ->
  signature_ok o p s = false ->
  let data := mkCallback (Some o) (Some p) (Some s) (Some A) (Some u) in
  (forall (fs : list fault) (t : Z),
     user_wallets (final_db (verify_razorpay_payment signature_ok data (mkWorld d fs t)))
     = user_wallets d
     /\ commissions (final_db (verify_razorpay_payment signature_ok data (mkWorld d fs t)))
        = commissions d)
  /\
  (forall t : Z,
     let r := verify_razorpay_payment signature_ok data (quiet d t) in
     returned r = Some (mkResponse false 400)
     /\ transactions (final_db r)
        = update_rows (fun x => opt_str_eqb (payment_gateway_id x) o)
            fail_gateway_transaction (transactions d)
     /\ (forall x, In x (transactions (final_db r)) ->
                   payment_gateway_id x = Some o -> t_status x = "failed")
     /\ (forall x, In x (transactions d) ->
                   payment_gateway_id x <> Some o -> In x (transactions (final_db r)))).
Proof.
  intros Ho Hp Hs Hu HA Hsig data. subst data.
  assert (Hn : truthy_num (Some A) = true).
  { unfold truthy_num. apply negb_true_iff.
    destruct (Qeq_bool A 0) eqn:E; [|reflexivity].
    apply Qeq_bool_eq in E. contradiction. }
  assert (Hrun : forall fs t,
            verify_razorpay_payment signature_ok
              (mkCallback (Some o) (Some p) (Some s) (Some A) (Some u)) (mkWorld d fs t)
            = bind (mark_gateway_failed o) (fun _ => respond false 400) (mkWorld d fs t)).
  { intros fs t. unfold verify_razorpay_payment.
    cbn [razorpay_order_id razorpay_payment_id razorpay_signature rc_amount rc_userId].
    rewrite (truthy_str_some o Ho), (truthy_str_some p Hp), (truthy_str_some s Hs),
      (truthy_str_some u Hu), Hn.
    cbn [andb negb str_of].
    unfold try_catch, verify_payment_signature. rewrite Hsig. reflexivity. }
  split.
  - intros fs t. rewrite Hrun. unfold mark_gateway_failed.
    rewrite bind_assoc_calm.
    destruct (hd Normal fs) eqn:F.
    + rewrite (bind_execute_normal _ _ _ _ _ _ F). split; reflexivity.
    + rewrite (bind_execute_no_effect _ _ _ _ _ _ F). split; reflexivity.
    + rewrite (bind_execute_throws _ _ _ _ _ _ F). split; reflexivity.
  - intros t r. subst r. unfold quiet. rewrite Hrun. unfold mark_gateway_failed.
    rewrite bind_assoc_calm, bind_execute_calm.
    unfold final_db, returned, final_world, bind, ret, respond. cbn [store].
    unfold update_transactions. cbn [fst set_transactions transactions].
    split; [reflexivity|]. split; [reflexivity|]. split.
    + intros x Hx Hg. unfold update_rows in Hx. apply in_map_iff in Hx.
      destruct Hx as [y [Hy Hin]].
      destruct (opt_str_eqb (payment_gateway_id y) o) eqn:E.
      * subst x. reflexivity.
      * subst x. rewrite Hg in E. cbn [opt_str_eqb] in E.
        rewrite String.eqb_refl in E. discriminate.
    + intros x Hx Hg. unfold update_rows. apply in_map_iff. exists x. split; [|exact Hx].
      destruct (opt_str_eqb (payment_gateway_id x) o) eqn:E; [|reflexivity].
      exfalso. apply Hg. unfold opt_str_eqb in E.
      destruct (payment_gateway_id x) as [g|]; [|discriminate].
      apply String.eqb_eq in E. congruence.
Qed.

(** * Further properties of the handlers *)

(** ** Invariants of runs *)

Section Preserves.

Variable P : database -> Prop.

Lemma preserves_ret {A : Type} (a : A) : preserves P (ret a).
Proof. intros w H. exact H. Qed.

Lemma preserves_raise {A : Type} (e : exn) : preserves P (@raise A e).
Proof. intros w H. exact H. Qed.

Lemma preserves_clock : preserves P clock.
Proof. intros w H. exact H. Qed.

Lemma preserves_bind {A B : Type} (m : M A) (k : A -> M B) :
  preserves P m -> (forall a, preserves P (k a)) -> preserves P (bind m k).
Proof.
  intros Hm Hk w H. unfold bind. specialize (Hm w H).
  destruct (m w) as [a w'|e w']; [apply Hk; exact Hm | exact Hm].
Qed.

Lemma preserves_try_catch {A : Type} (m : M A) (h : exn -> M A) :
  preserves P m -> (forall e, preserves P (h e)) -> preserves P (try_catch m h).
Proof.
  intros Hm Hh w H. unfold try_catch. specialize (Hm w H).
  destruct (m w) as [a w'|e w']; [exact Hm | apply Hh; exact Hm].
Qed.

Lemma preserves_execute {A : Type} (run : database -> database * A) (empty : A) :
  (forall d, P d -> P (fst (run d))) -> preserves P (execute run empty).
Proof.
  intros Hrun w H. unfold execute, final_db.
  destruct (hd Normal (answers w)).
  - specialize (Hrun (store w) H). destruct (run (store w)) as [d' a].
    exact Hrun.
  - exact H.
  - exact H.
Qed.

Lemma preserves_execute_single {A : Type} (run : database -> database * option A) :
  (forall d, P d -> P (fst (run d))) -> preserves P (execute_single run).
Proof.
  intros Hrun w H. unfold execute_single, final_db.
  destruct (hd Normal (answers w)).
  - specialize (Hrun (store w) H). destruct (run (store w)) as [d' [r|]].
    + exact Hrun.
    + exact H.
  - exact H.
  - exact H.
Qed.

(** What follows a raise is not run. *)
Lemma preserves_bind_raise {A B : Type} (e : exn) (k : A -> M B) :
  preserves P (bind (raise e) k).
Proof. intros w H. exact H. Qed.

Lemma preserves_if {A : Type} (c : bool) (m1 m2 : M A) :
  preserves P m1 -> preserves P m2 -> preserves P (if c then m1 else m2).
Proof. destruct c; tauto. Qed.

Lemma preserves_respond (ok : bool) (code : nat) : preserves P (respond ok code).
Proof. apply preserves_ret. Qed.

End Preserves.

(** ** Rejection of manual payments *)

Lemma reject_payments_preserves (P : database -> Prop) (rows : list manual_payment) :
  (forall d id, P d ->
     P (fst (update_manual_payments (fun r => Nat.eqb (mp_id r) id) mark_rejected d))) ->
  preserves P (reject_payments rows).
Proof.
  intros HP. induction rows as [|p rest IH]; [apply preserves_ret|].
  cbn [reject_payments]. apply preserves_bind; [|intros _; exact IH].
  apply preserves_execute. intros d Hd. apply HP. exact Hd.
Qed.

(** X1.  Rejecting a UTR writes nothing but [manual_payments]: no wallet, no
    transaction, no profile and no commission row changes, however the store
    answers. *)
Theorem reject_manual_payment_only_marks (utr : option string) (w : world) :
  outside_manual_payments (final_db (reject_manual_payment utr w))
  = outside_manual_payments (store w).
Proof.
  assert (K : preserves (fun d => outside_manual_payments d
                                  = outside_manual_payments (store w))
                (reject_manual_payment utr)).
  { unfold reject_manual_payment.
    apply preserves_try_catch; [|intros; apply preserves_respond].
    apply preserves_if; [apply preserves_respond|].
    apply preserves_bind; [apply preserves_execute; intros d Hd; exact Hd|].
    intros rows. apply preserves_if; [apply preserves_respond|].
    apply preserves_bind; [|intros; apply preserves_respond].
    apply reject_payments_preserves. intros d id Hd. exact Hd. }
  apply K. reflexivity.
Qed.

Lemma reject_payments_calm (rows : list manual_payment) :
  forall (d : database) (t : Z),
    reject_payments rows (quiet d t) = Done tt (quiet (reject_payments_effect rows d) t).
Proof.
  induction rows as [|p rest IH]; intros d t; [reflexivity|].
  cbn [reject_payments reject_payments_effect].
  unfold quiet at 1. rewrite bind_execute_calm. apply IH.
Qed.

Lemma reject_manual_payment_calm (utr : string) (d : database) (t : Z) :
  utr <> "" ->
  reject_manual_payment (Some utr) (quiet d t)
  = if nonempty (pending_group utr d)
    then Done (mkResponse true 200)
           (quiet (reject_payments_effect (pending_group utr d) d) t)
    else Done (mkResponse false 404) (quiet d t).
Proof.
  intros Hu. unfold reject_manual_payment.
  rewrite (truthy_str_some utr Hu). cbn [negb str_of].
  unfold try_catch, quiet at 1. rewrite bind_execute_calm.
  fold (pending_group utr d). unfold select_pending_payments at 1. cbn [fst].
  destruct (nonempty (pending_group utr d)); cbn [negb].
  - fold (quiet d t). unfold bind. rewrite reject_payments_calm. reflexivity.
  - reflexivity.
Qed.

Lemma mark_rejected_spec (r : manual_payment) :
  mp_id (mark_rejected r) = mp_id r /\ mp_status (mark_rejected r) = "rejected".
Proof. split; reflexivity. Qed.

Lemma rejected_ids_update (ids : list nat) (id : nat) (d : database) :
  rejected_ids ids d ->
  rejected_ids (id :: ids)
    (fst (update_manual_payments (fun r => Nat.eqb (mp_id r) id) mark_rejected d)).
Proof.
  intros H q Hq Hid. unfold update_manual_payments in Hq.
  cbn [fst set_manual_payments manual_payments] in Hq.
  unfold update_rows in Hq. apply in_map_iff in Hq. destruct Hq as [r [Hr Hin]].
  destruct (Nat.eqb (mp_id r) id) eqn:E.
  - subst q. reflexivity.
  - subst q. destruct Hid as [Hid|Hid].
    + apply Nat.eqb_neq in E. congruence.
    + apply H; assumption.
Qed.

Lemma reject_payments_effect_rejects (rows : list manual_payment) :
  forall ids d,
    rejected_ids ids d ->
    rejected_ids (rev (map mp_id rows) ++ ids) (reject_payments_effect rows d).
Proof.
  induction rows as [|p rest IH]; intros ids d H; [exact H|].
  cbn [reject_payments_effect map rev].
  rewrite <- app_assoc. cbn [app]. apply IH. apply rejected_ids_update. exact H.
Qed.

Lemma old_or_rejected_update (d0 d : database) (id : nat) :
  old_or_rejected d0 d ->
  old_or_rejected d0
    (fst (update_manual_payments (fun r => Nat.eqb (mp_id r) id) mark_rejected d)).
Proof.
  intros H q Hq. unfold update_manual_payments in Hq.
  cbn [fst set_manual_payments manual_payments] in Hq.
  unfold update_rows in Hq. apply in_map_iff in Hq. destruct Hq as [r [Hr Hin]].
  destruct (Nat.eqb (mp_id r) id).
  - subst q. right. reflexivity.
  - subst q. apply H. exact Hin.
Qed.

Lemma reject_payments_effect_old_or_rejected (d0 : database) (rows : list manual_payment) :
  forall d, old_or_rejected d0 d -> old_or_rejected d0 (reject_payments_effect rows d).
Proof.
  induction rows as [|p rest IH]; intros d H; [exact H|].
  cbn [reject_payments_effect]. apply IH. apply old_or_rejected_update. exact H.
Qed.

Lemma filter_nil_intro {A : Type} (p : A -> bool) (l : list A) :
  (forall r, In r l -> p r = false) -> filter p l = [].
Proof.
  induction l as [|x l IH]; intros H; [reflexivity|].
  cbn [filter]. rewrite (H x (or_introl eq_refl)). apply IH.
  intros r Hr. apply H. right. exact Hr.
Qed.

(** After the loop no row of the UTR is pending any more. *)
Lemma reject_payments_effect_clears (utr : string) (d : database) :
  pending_group utr (reject_payments_effect (pending_group utr d) d) = [].
Proof.
  set (d' := reject_payments_effect (pending_group utr d) d).
  unfold pending_group at 1, select_pending_payments. cbn [snd].
  apply filter_nil_intro. intros q Hq.
  destruct ((utr_number q =? utr) && (mp_status q =? "pending")) eqn:E; [|reflexivity].
  exfalso. apply andb_true_iff in E. destruct E as [Eu Es].
  apply String.eqb_eq in Es.
  assert (Hold : old_or_rejected d d')
    by (apply reject_payments_effect_old_or_rejected; intros r Hr; left; exact Hr).
  destruct (Hold q Hq) as [Hin|Hrej]; [|rewrite Hrej in Es; discriminate].
  assert (Hg : In q (pending_group utr d)).
  { unfold pending_group, select_pending_payments. cbn [snd].
    apply filter_In. split; [exact Hin|]. rewrite Eu, Es. reflexivity. }
  assert (Hrej : rejected_ids (rev (map mp_id (pending_group utr d)) ++ []) d')
    by (apply reject_payments_effect_rejects; intros r _ []).
  rewrite app_nil_r in Hrej.
  assert (Hst : mp_status q = "rejected").
  { apply Hrej; [exact Hq|]. apply in_rev. rewrite rev_involutive.
    apply in_map. exact Hg. }
  rewrite Hst in Es. discriminate.
Qed.

(** X2.  Rejecting a UTR, the store answering normally.  With no pending row the
    answer is 404 and nothing is written.  Otherwise the answer is success, no
    row of the UTR is pending afterwards, and a verification of the same UTR
    after that finds nothing to credit: it answers 404 and writes nothing. *)
Theorem rejected_utr_cannot_be_verified (utr : string) (d : database) (t t' : Z) :
  utr <> "" ->
  (pending_group utr d = [] ->
     reject_manual_payment (Some utr) (quiet d t) = Done (mkResponse false 404) (quiet d t))
  /\
  (pending_group utr d <> [] ->
     let d' := final_db (reject_manual_payment (Some utr) (quiet d t)) in
     returned (reject_manual_payment (Some utr) (quiet d t)) = Some (mkResponse true 200)
     /\ pending_group utr d' = []
     /\ admin_verify_manual_payment (Some utr) (quiet d' t')
        = Done (mkResponse false 404) (quiet d' t')).
Proof.
  intros Hu. split.
  - intros He. rewrite (reject_manual_payment_calm utr d t Hu), He. reflexivity.
  - intros Hne d'.
    assert (Hd' : d' = reject_payments_effect (pending_group utr d) d).
    { subst d'. rewrite (reject_manual_payment_calm utr d t Hu).
      destruct (pending_group utr d); [contradiction | reflexivity]. }
    split; [|split].
    + rewrite (reject_manual_payment_calm utr d t Hu).
      destruct (pending_group utr d); [contradiction | reflexivity].
    + rewrite Hd'. apply reject_payments_effect_clears.
    + rewrite (admin_verify_manual_payment_calm utr d' t' Hu).
      rewrite Hd', reject_payments_effect_clears. reflexivity.
Qed.

(** ** Submission of manual payments *)

Lemma length_nonempty (s : string) (n : nat) : String.length s = S n -> s <> "".
Proof. intros H E. subst s. discriminate. Qed.

Lemma truthy_num_nonzero (q : Q) : ~ (q == 0)%Q -> truthy_num (Some q) = true.
Proof.
  intros H. unfold truthy_num. apply negb_true_iff.
  destruct (Qeq_bool q 0) eqn:E; [|reflexivity].
  apply Qeq_bool_eq in E. contradiction.
Qed.

Lemma fresh_id_bound (ids : list nat) (x : nat) : In x ids -> (x < fresh_id ids)%nat.
Proof.
  unfold fresh_id. induction ids as [|y ids IH]; intros H; [destruct H|].
  cbn [fold_right]. destruct H as [->|H].
  - lia.
  - specialize (IH H). lia.
Qed.

Lemma confirm_manual_payment_calm (u utr mobile : string) (A : Q) (d : database) (t : Z) :
  u <> "" -> ~ (A == 0)%Q ->
  String.length utr = 12%nat -> String.length mobile = 10%nat ->
  confirm_manual_payment (mkSubmission (Some u) (Some A) (Some utr) (Some mobile))
    (quiet d t)
  = Done (mkResponse true 201)
      (quiet (fst (insert_manual_payment
                     (fun id => mkManualPayment id u A utr mobile "pending" false) d)) t).
Proof.
  intros Hu HA Hl Hm. unfold confirm_manual_payment.
  cbn [ps_userId ps_amount ps_utrNumber ps_mobileNumber].
  rewrite (truthy_str_some u Hu), (truthy_num_nonzero A HA),
    (truthy_str_some utr (length_nonempty utr _ Hl)),
    (truthy_str_some mobile (length_nonempty mobile _ Hm)).
  cbn [andb negb str_of]. rewrite Hl, Hm. cbn [Nat.eqb andb negb].
  unfold try_catch, quiet. rewrite bind_execute_calm. reflexivity.
Qed.

(** X3.  A well-formed submission, the store answering normally, is answered 201
    and appends exactly one row: pending, not credited, carrying the submitted
    user, amount, UTR and mobile number.  Nothing else is written, and rows
    already holding the same UTR do not prevent it. *)
Theorem confirm_manual_payment_appends_pending (u utr mobile : string) (A : Q)
  (d : database) (t : Z) :
  u <> "" -> ~ (A == 0)%Q ->
  String.length utr = 12%nat -> String.length mobile = 10%nat ->
  let r := confirm_manual_payment (mkSubmission (Some u) (Some A) (Some utr) (Some mobile))
             (quiet d t) in
  returned r = Some (mkResponse true 201)
  /\ manual_payments (final_db r)
     = manual_payments d
       ++ [mkManualPayment (fresh_id (map mp_id (manual_payments d))) u A utr mobile
             "pending" false]
  /\ pending_group utr (final_db r)
     = pending_group utr d
       ++ [mkManualPayment (fresh_id (map mp_id (manual_payments d))) u A utr mobile
             "pending" false]
  /\ outside_manual_payments (final_db r) = outside_manual_payments d.
Proof.
  intros Hu HA Hl Hm r. subst r.
  rewrite (confirm_manual_payment_calm u utr mobile A d t Hu HA Hl Hm).
  unfold final_db, final_world, returned, quiet. cbn [store].
  split; [reflexivity|]. split; [reflexivity|]. split; [|reflexivity].
  unfold pending_group, select_pending_payments, insert_manual_payment.
  cbn [snd fst set_manual_payments manual_payments].
  rewrite filter_app. cbn [filter utr_number mp_status].
  rewrite String.eqb_refl. reflexivity.
Qed.

Lemma update_rows_app {A : Type} (p : A -> bool) (f : A -> A) (l1 l2 : list A) :
  update_rows p f (l1 ++ l2) = update_rows p f l1 ++ update_rows p f l2.
Proof. unfold update_rows. apply map_app. Qed.

(** X4.  A payment submitted under a UTR that has no pending row, then verified:
    the payer's [recharged_amount] grows by exactly the submitted amount, and
    the submitted row, and no other, ends completed and credited. *)
Theorem submitted_payment_is_credited_on_verification (u utr mobile : string) (A : Q)
  (d : database) (w : wallet) (t t' : Z) :
  u <> "" -> ~ (A == 0)%Q ->
  String.length utr = 12%nat -> String.length mobile = 10%nat ->
  pending_group utr d = [] ->
  wallets_of u d = [w] ->
  let d1 := final_db (confirm_manual_payment
                        (mkSubmission (Some u) (Some A) (Some utr) (Some mobile))
                        (quiet d t)) in
  let r := admin_verify_manual_payment (Some utr) (quiet d1 t') in
  returned r = Some (mkResponse true 200)
  /\ (exists w', wallets_of u (final_db r) = [w']
                 /\ recharged_amount w' = (recharged_amount w + A)%Q)
  /\ manual_payments (final_db r)
     = manual_payments d
       ++ [mkManualPayment (fresh_id (map mp_id (manual_payments d))) u A utr mobile
             "completed" true].
Proof.
  intros Hu HA Hl Hm Hg Hw d1 r.
  set (new := mkManualPayment (fresh_id (map mp_id (manual_payments d))) u A utr mobile
                "pending" false).
  assert (Hd1 : d1 = set_manual_payments d (manual_payments d ++ [new])).
  { subst d1. rewrite (confirm_manual_payment_calm u utr mobile A d t Hu HA Hl Hm).
    reflexivity. }
  assert (Hg1 : pending_group utr d1 = [new]).
  { rewrite Hd1. unfold pending_group, select_pending_payments in *.
    cbn [snd set_manual_payments manual_payments] in *.
    rewrite filter_app, Hg. cbn [filter utr_number mp_status new app].
    rewrite String.eqb_refl. reflexivity. }
  assert (Hutr : utr <> "") by (apply (length_nonempty utr _ Hl)).
  assert (Hr : r = Done (mkResponse true 200)
                     (quiet (process_payments_effect [new] false d1) t')).
  { subst r. rewrite (admin_verify_manual_payment_calm utr d1 t' Hutr), Hg1. reflexivity. }
  rewrite Hr. unfold final_db, final_world, returned, quiet. cbn [store].
  split; [reflexivity|].
  pose proof (process_payments_effect_credits_once [] [] new d1 (Forall_nil _) eq_refl) as L.
  cbn [app] in L.
  split.
  - rewrite (wallets_of_ledger u _ _ L).
    apply credit_effect_recharged.
    rewrite Hd1. exact Hw.
  - cbn [process_payments_effect is_credited new negb mp_user_id mp_amount mp_id].
    rewrite credit_effect_manual_payments.
    rewrite Hd1. unfold update_manual_payments.
    cbn [fst set_manual_payments manual_payments].
    rewrite update_rows_app.
    rewrite update_rows_none.
    + cbn [update_rows map mp_id]. rewrite Nat.eqb_refl. reflexivity.
    + intros q Hq. apply Nat.eqb_neq.
      assert (Hlt : (mp_id q < fresh_id (map mp_id (manual_payments d)))%nat)
        by (apply fresh_id_bound, in_map, Hq).
      lia.
Qed.

(** ** Eligibility for withdrawal *)

Lemma check_successful_investment_calm (u : string) (d : database) (t : Z) :
  u <> "" ->
  check_successful_investment (Some u) (quiet d t)
  = Done (mkInvestmentAnswer (has_investment u d) 200) (quiet d t).
Proof.
  intros Hu. unfold check_successful_investment.
  rewrite (truthy_str_some u Hu). cbn [negb str_of].
  unfold try_catch, quiet. rewrite bind_execute_calm.
  fold (has_investment u d). unfold select_investment at 1. cbn [fst].
  destruct (has_investment u d); reflexivity.
Qed.

Lemma has_investment_intro (u : string) (d : database) (q : manual_payment) :
  In q (manual_payments d) -> mp_user_id q = u -> mp_status q = "completed" ->
  has_investment u d = true.
Proof.
  intros Hin Hu Hs. unfold has_investment, select_investment. cbn [snd].
  assert (Hf : In q (filter (fun p => (mp_user_id p =? u)
                                      && str_in (mp_status p) ["success"; "completed"])
                       (manual_payments d))).
  { apply filter_In. split; [exact Hin|]. rewrite Hu, Hs, String.eqb_refl. reflexivity. }
  destruct (filter _ (manual_payments d)); [destruct Hf | reflexivity].
Qed.

(** Rows are never dropped by the verification loop, and keep id and owner. *)
Lemma process_payments_effect_keeps_rows (rows : list manual_payment) :
  forall first d r,
    In r (manual_payments d) ->
    exists q, In q (manual_payments (process_payments_effect rows first d))
              /\ mp_id q = mp_id r /\ mp_user_id q = mp_user_id r.
Proof.
  assert (Hupd : forall (f : manual_payment -> manual_payment) P d r,
            (forall x, mp_id (f x) = mp_id x /\ mp_user_id (f x) = mp_user_id x) ->
            In r (manual_payments d) ->
            exists q, In q (manual_payments (fst (update_manual_payments P f d)))
                      /\ mp_id q = mp_id r /\ mp_user_id q = mp_user_id r).
  { intros f P d r Hf Hin. unfold update_manual_payments.
    cbn [fst set_manual_payments manual_payments].
    exists (if P r then f r else r). split.
    - unfold update_rows. apply in_map_iff. exists r. split; [reflexivity | exact Hin].
    - destruct (P r); [apply Hf | split; reflexivity]. }
  induction rows as [|p rest IH]; intros first d r Hin; [exists r; auto|].
  cbn [process_payments_effect].
  destruct (is_credited p); [apply IH; exact Hin|].
  destruct (negb first).
  - destruct (Hupd mark_completed_credited (fun x => Nat.eqb (mp_id x) (mp_id p)) d r
                (fun x => conj eq_refl eq_refl) Hin) as [q [Hq [E1 E2]]].
    rewrite <- (credit_effect_manual_payments (mp_user_id p) (mp_amount p)) in Hq.
    destruct (IH true _ q Hq) as [q' [Hq' [E1' E2']]].
    exists q'. split; [exact Hq'|]. split; congruence.
  - destruct (Hupd mark_completed (fun x => Nat.eqb (mp_id x) (mp_id p)) d r
                (fun x => conj eq_refl eq_refl) Hin) as [q [Hq [E1 E2]]].
    destruct (IH first _ q Hq) as [q' [Hq' [E1' E2']]].
    exists q'. split; [exact Hq'|]. split; congruence.
Qed.

(** X5.  A verification run makes the payer of every pending row it completes
    eligible for withdrawal: afterwards [check_successful_investment] answers
    [hasInvested = true] for that user. *)
Theorem verification_makes_payer_eligible (utr : string) (d : database)
  (p : manual_payment) (t t' : Z) :
  utr <> "" ->
  In p (pending_group utr d) ->
  is_credited p = false ->
  mp_user_id p <> "" ->
  let d' := final_db (admin_verify_manual_payment (Some utr) (quiet d t)) in
  check_successful_investment (Some (mp_user_id p)) (quiet d' t')
  = Done (mkInvestmentAnswer true 200) (quiet d' t').
Proof.
  intros Hu Hin Hp Hne d'.
  rewrite (check_successful_investment_calm (mp_user_id p) d' t' Hne).
  assert (Hd' : d' = process_payments_effect (pending_group utr d) false d).
  { subst d'. rewrite (admin_verify_manual_payment_calm utr d t Hu).
    destruct (pending_group utr d); [destruct Hin | reflexivity]. }
  assert (Hrow : In p (manual_payments d)).
  { unfold pending_group, select_pending_payments in Hin. cbn [snd] in Hin.
    apply filter_In in Hin. tauto. }
  destruct (process_payments_effect_keeps_rows (pending_group utr d) false d p Hrow)
    as [q [Hq [E1 E2]]].
  rewrite <- Hd' in Hq.
  assert (Hs : mp_status q = "completed").
  { pose proof (process_payments_effect_completes (pending_group utr d) false d p Hin Hp)
      as Hc.
    rewrite <- Hd' in Hc. apply Hc; [exact Hq | left; symmetry; exact E1]. }
  rewrite (has_investment_intro (mp_user_id p) d' q Hq E2 Hs). reflexivity.
Qed.

(** *** Refusals at the two gates of a withdrawal request *)

Section WithdrawalGates.

Variables (d : database) (u card : string) (amount : Q) (b : bank_details) (clk : Z).

Hypothesis user_given : u <> "".
Hypothesis card_given : card <> "".
Hypothesis details_given : truthy_details (Some b) = true.
Hypothesis amount_positive : (0 < amount)%Q.

Lemma withdrawal_over_daily_limit :
  (2 <= List.length (withdrawals_today u clk d))%nat ->
  handle_withdrawal_request (mkWithdrawal (Some u) (Some amount) (Some card) (Some b))
    (quiet d clk)
  = Done (mkResponse false 403) (quiet d clk).
Proof.
  intros Hl. unfold handle_withdrawal_request.
  cbn [wr_userId wr_amount wr_bankCardId wr_bankDetails].
  rewrite (truthy_str_some u user_given), (truthy_str_some card card_given),
    (truthy_num_pos amount amount_positive), details_given.
  cbn [andb negb]. rewrite (Qle_bool_pos amount amount_positive).
  cbn [str_of]. unfold try_catch, quiet.
  rewrite bind_clock. cbn [now]. rewrite bind_execute_calm.
  fold (withdrawals_today u clk d).
  assert (L : Nat.leb 2 (List.length (withdrawals_today u clk d)) = true)
    by (apply Nat.leb_le; exact Hl).
  rewrite L. reflexivity.
Qed.

Lemma withdrawal_without_investment :
  has_investment u d = false ->
  handle_withdrawal_request (mkWithdrawal (Some u) (Some amount) (Some card) (Some b))
    (quiet d clk)
  = Done (mkResponse false 403) (quiet d clk).
Proof.
  intros Hi.
  destruct (Nat.leb 2 (List.length (withdrawals_today u clk d))) eqn:L.
  - apply withdrawal_over_daily_limit. apply Nat.leb_le. exact L.
  - unfold handle_withdrawal_request.
    cbn [wr_userId wr_amount wr_bankCardId wr_bankDetails].
    rewrite (truthy_str_some u user_given), (truthy_str_some card card_given),
      (truthy_num_pos amount amount_positive), details_given.
    cbn [andb negb]. rewrite (Qle_bool_pos amount amount_positive).
    cbn [str_of]. unfold try_catch, quiet.
    rewrite bind_clock. cbn [now]. rewrite bind_execute_calm.
    fold (withdrawals_today u clk d). rewrite L.
    unfold select_withdrawals_since at 1. cbn [fst].
    rewrite bind_execute_calm.
    fold (has_investment u d). rewrite Hi. reflexivity.
Qed.

End WithdrawalGates.

(** X6.  A well-formed withdrawal request is refused with 403, and nothing is
    written, when the user already has two withdrawal transactions created
    since the start of the day, whatever their status, or when the user has no
    manual payment with status [success] or [completed]. *)
Theorem withdrawal_gate_refusals (d : database) (u card : string) (amount : Q)
  (b : bank_details) (clk : Z) :
  u <> "" -> card <> "" -> truthy_details (Some b) = true -> (0 < amount)%Q ->
  (2 <= List.length (withdrawals_today u clk d))%nat \/ has_investment u d = false ->
  handle_withdrawal_request (mkWithdrawal (Some u) (Some amount) (Some card) (Some b))
    (quiet d clk)
  = Done (mkResponse false 403) (quiet d clk).
Proof.
  intros Hu Hc Hb Ha [Hl|Hi].
  - apply withdrawal_over_daily_limit; assumption.
  - apply withdrawal_without_investment; assumption.
Qed.

(** ** What a gateway recharge leaves alone *)

Lemma referral_commission_preserves (P : database -> Prop) (u : string) (a : Q) :
  (forall d r x, P d -> P (fst (increment_referral_commission r x d))) ->
  preserves P (referral_commission u a).
Proof.
  intros Hrpc. unfold referral_commission.
  apply preserves_try_catch; [|intros; apply preserves_ret].
  apply preserves_bind; [apply preserves_execute_single; intros d Hd; exact Hd|].
  intros resp.
  apply preserves_if; [|apply preserves_ret].
  apply preserves_bind; [apply preserves_execute; intros d Hd; apply Hrpc; exact Hd|].
  intros commission_rpc_response.
  unfold rpc_status_code, missing_attribute. apply preserves_bind_raise.
Qed.

Lemma credit_recharged_amount_preserves (P : database -> Prop) (u : string) (a : Q) :
  (forall d, P d -> P (fst (increment_recharged_amount u a d))) ->
  preserves P (credit_recharged_amount u a).
Proof.
  intros H. unfold credit_recharged_amount.
  apply preserves_try_catch; [|intros; apply preserves_raise].
  apply preserves_bind; [|intros; apply preserves_ret].
  apply preserves_execute. exact H.
Qed.

Lemma mark_gateway_failed_preserves (P : database -> Prop) (o : string) :
  (forall d f, P d ->
     P (fst (update_transactions (fun t => opt_str_eqb (payment_gateway_id t) o) f d))) ->
  preserves P (mark_gateway_failed o).
Proof.
  intros H. unfold mark_gateway_failed.
  apply preserves_bind; [|intros; apply preserves_ret].
  apply preserves_execute. intros d Hd. apply H. exact Hd.
Qed.

Lemma verify_razorpay_payment_preserves (P : database -> Prop)
  (signature_ok : string -> string -> string -> bool) (data : razorpay_callback) :
  (forall d r x, P d -> P (fst (increment_referral_commission r x d))) ->
  (forall d u a, P d -> P (fst (increment_recharged_amount u a d))) ->
  (forall d p f, P d -> P (fst (update_transactions p f d))) ->
  preserves P (verify_razorpay_payment signature_ok data).
Proof.
  intros Hrpc Hrec Htx. unfold verify_razorpay_payment.
  apply preserves_if; [apply preserves_respond|].
  destruct (rc_amount data) as [amount|]; [|apply preserves_respond].
  apply preserves_try_catch.
  - apply preserves_bind.
    { unfold verify_payment_signature.
      apply preserves_if; [apply preserves_ret | apply preserves_raise]. }
    intros _. apply preserves_bind;
      [apply referral_commission_preserves; assumption|].
    intros _. apply preserves_bind;
      [apply credit_recharged_amount_preserves; intros; apply Hrec; assumption|].
    intros _. apply preserves_bind;
      [apply preserves_execute; intros; apply Htx; assumption|].
    intros rows. apply preserves_bind.
    { apply preserves_if; [apply preserves_raise | apply preserves_ret]. }
    intros _. apply preserves_bind;
      [apply preserves_execute_single; intros d Hd; exact Hd|].
    intros _. apply preserves_respond.
  - intros e.
    destruct e;
      (apply preserves_bind;
       [apply mark_gateway_failed_preserves; intros; apply Htx; assumption
       | intros; apply preserves_respond]).
Qed.

(** X7.  A gateway callback never writes [manual_payments], whatever the
    signature check says and however the store answers.  The eligibility gate
    of withdrawals reads that table only: a user without a completed manual
    payment is still refused with 403 after a gateway recharge. *)
Theorem gateway_recharge_does_not_unlock_withdrawal
  (signature_ok : string -> string -> string -> bool) (data : razorpay_callback)
  (w : world) :
  let d' := final_db (verify_razorpay_payment signature_ok data w) in
  manual_payments d' = manual_payments (store w)
  /\ (forall (u card : string) (amount : Q) (b : bank_details) (clk : Z),
        u <> "" -> card <> "" -> truthy_details (Some b) = true -> (0 < amount)%Q ->
        has_investment u (store w) = false ->
        handle_withdrawal_request
          (mkWithdrawal (Some u) (Some amount) (Some card) (Some b)) (quiet d' clk)
        = Done (mkResponse false 403) (quiet d' clk)).
Proof.
  intros d'.
  assert (Hm : manual_payments d' = manual_payments (store w)).
  { subst d'.
    apply (verify_razorpay_payment_preserves
             (fun d => manual_payments d = manual_payments (store w)));
      try (intros; assumption). reflexivity. }
  split; [exact Hm|].
  intros u card amount b clk Hu Hc Hb Ha Hi.
  apply withdrawal_without_investment; try assumption.
  unfold has_investment, select_investment in *. cbn [snd] in *.
  rewrite Hm. exact Hi.
Qed.

(** ** Footprint and invariants of a withdrawal request *)

(** A [.single()] read followed by a continuation: the continuation may use
    the row read from a store satisfying [P]. *)
Lemma preserves_bind_read_single {A B : Type} (P : database -> Prop)
  (q : database -> option A) (k : option A -> M B) :
  (forall d r, P d -> q d = Some r -> preserves P (k (Some r))) ->
  preserves P (bind (execute_single (fun d => (d, q d))) k).
Proof.
  intros Hk w H. destruct w as [d fs t]. cbn [store] in H.
  unfold bind, execute_single. cbn [answers store now].
  destruct (hd Normal fs); try exact H.
  destruct (q d) as [r|] eqn:E; [|exact H].
  apply (Hk d r H E). exact H.
Qed.

Lemma withdrawal_frame_refl (u : string) (d : database) : withdrawal_frame u d d.
Proof.
  repeat split; try reflexivity. exists []. symmetry. apply app_nil_r.
Qed.

Lemma withdrawal_frame_debit (u : string) (d0 d : database) (x : Q) :
  withdrawal_frame u d0 d ->
  withdrawal_frame u d0
    (fst (update_wallets (fun r => w_user_id r =? u) (set_order_income x) d)).
Proof.
  intros [H1 [H2 [H3 [H4 [H5 H6]]]]]. split; [|split; [|repeat split; assumption]].
  - unfold update_wallets. cbn [fst set_wallets user_wallets].
    rewrite <- H1. unfold update_rows. rewrite map_map. apply map_ext.
    intros r. destruct (w_user_id r =? u); reflexivity.
  - intros v Hv. rewrite <- (H2 v Hv).
    apply wallets_of_update_other; [intros; apply set_order_income_owner | exact Hv].
Qed.

Lemma withdrawal_frame_record (u : string) (d0 d : database) (mk : nat -> transaction) :
  withdrawal_frame u d0 d ->
  withdrawal_frame u d0 (fst (insert_transaction mk d)).
Proof.
  intros [H1 [H2 [H3 [H4 [H5 [l H6]]]]]].
  repeat split; try assumption.
  unfold insert_transaction. cbn [fst set_transactions transactions].
  eexists. rewrite H6, <- app_assoc. reflexivity.
Qed.

Lemma debit_and_record_preserves (P : database -> Prop) (u : string) (amount : Q)
  (b : option bank_details) (w : wallet) :
  (forall d, P d ->
     P (fst (update_wallets (fun r => w_user_id r =? u)
               (set_order_income (order_income w - round2 amount)) d))) ->
  (forall d, P d ->
     P (fst (update_wallets (fun r => w_user_id r =? u)
               (set_order_income (order_income w)) d))) ->
  (forall d mk, P d -> P (fst (insert_transaction mk d))) ->
  Qlt_bool (order_income w) (round2 amount) = false ->
  preserves P (debit_and_record u amount b w).
Proof.
  intros Hdeb Hres Hins Hge. unfold debit_and_record. rewrite Hge.
  apply preserves_bind; [apply preserves_execute; exact Hdeb|].
  intros resp. apply preserves_if; [apply preserves_respond|].
  apply preserves_bind; [apply preserves_clock|]. intros created.
  apply preserves_bind; [apply preserves_execute; intros; apply Hins; assumption|].
  intros resp'. apply preserves_if.
  - apply preserves_bind; [apply preserves_execute; exact Hres|].
    intros; apply preserves_respond.
  - apply preserves_bind; [|intros; apply preserves_respond].
    unfold withdrawal_notification.
    destruct b as [bd|]; [|apply preserves_raise].
    apply preserves_if; [apply preserves_ret | apply preserves_raise].
Qed.

(** The shape of the handler around [debit_and_record]: [P] is kept as soon
    as it is kept by the debit of a wallet row read from a store satisfying
    [P]. *)
Lemma handle_withdrawal_request_preserves (P : database -> Prop)
  (data : withdrawal_request) :
  (forall amount d w,
     P d -> In w (user_wallets d) ->
     preserves P (debit_and_record (str_of (wr_userId data)) amount
                    (wr_bankDetails data) w)) ->
  preserves P (handle_withdrawal_request data).
Proof.
  intros Hdeb. unfold handle_withdrawal_request.
  apply preserves_try_catch; [|intros; apply preserves_respond].
  apply preserves_if; [apply preserves_respond|].
  destruct (wr_amount data) as [amount|]; [|apply preserves_respond].
  apply preserves_if; [apply preserves_respond|].
  apply preserves_bind; [apply preserves_clock|]. intros today.
  apply preserves_bind; [apply preserves_execute; intros d Hd; exact Hd|].
  intros cnt. apply preserves_if; [apply preserves_respond|].
  apply preserves_bind; [apply preserves_execute; intros d Hd; exact Hd|].
  intros inv. apply preserves_if; [apply preserves_respond|].
  apply (preserves_bind_read_single P
           (fun d => single (filter (fun w => w_user_id w =? str_of (wr_userId data))
                               (user_wallets d)))).
  intros d w Hd Hs.
  destruct (filter _ (user_wallets d)) as [|w0 [|w' l]] eqn:E; cbn [single] in Hs;
    try discriminate.
  inversion Hs. subst w0.
  apply (Hdeb amount d w Hd).
  assert (Hin : In w (filter (fun w => w_user_id w =? str_of (wr_userId data))
                        (user_wallets d))) by (rewrite E; left; reflexivity).
  apply filter_In in Hin. tauto.
Qed.

Lemma debit_insufficient_any (u : string) (amount : Q) (b : option bank_details)
  (w : wallet) (w0 : world) :
  Qlt_bool (order_income w) (round2 amount) = true ->
  debit_and_record u amount b w w0 = Done (mkResponse false 400) w0.
Proof. intros H. unfold debit_and_record. rewrite H. reflexivity. Qed.

(** X8.  What a withdrawal request can write, however the store answers and
    whatever the request: of the wallets only [order_income] of the
    requesting user; transactions are only appended; payments, profiles and
    commissions are not touched. *)
Theorem withdrawal_request_footprint (data : withdrawal_request) (w : world) :
  withdrawal_frame (str_of (wr_userId data)) (store w)
    (final_db (handle_withdrawal_request data w)).
Proof.
  apply (handle_withdrawal_request_preserves
           (withdrawal_frame (str_of (wr_userId data)) (store w)));
    [|apply withdrawal_frame_refl].
  intros amount d r Hd Hin.
  destruct (Qlt_bool (order_income r) (round2 amount)) eqn:E.
  - intros w0 H. rewrite (debit_insufficient_any _ _ _ _ _ E). exact H.
  - apply debit_and_record_preserves; try exact E; intros.
    + apply withdrawal_frame_debit; assumption.
    + apply withdrawal_frame_debit; assumption.
    + apply withdrawal_frame_record; assumption.
Qed.

Lemma order_income_nonnegative_set (u : string) (x : Q) (d : database) :
  (0 <= x)%Q ->
  order_income_nonnegative d ->
  order_income_nonnegative
    (fst (update_wallets (fun r => w_user_id r =? u) (set_order_income x) d)).
Proof.
  intros Hx H r Hr. unfold update_wallets in Hr. cbn [fst set_wallets user_wallets] in Hr.
  unfold update_rows in Hr. apply in_map_iff in Hr. destruct Hr as [r0 [E Hin]].
  destruct (w_user_id r0 =? u); subst r; [exact Hx | apply H; exact Hin].
Qed.

(** X9.  A withdrawal request never drives [order_income] below zero: if no
    wallet row has a negative [order_income] before the request, none has
    after it, however the store answers and whatever the request. *)
Theorem withdrawal_keeps_order_income_nonnegative (data : withdrawal_request) (w : world) :
  order_income_nonnegative (store w) ->
  order_income_nonnegative (final_db (handle_withdrawal_request data w)).
Proof.
  apply (handle_withdrawal_request_preserves order_income_nonnegative).
  intros amount d r Hd Hin.
  destruct (Qlt_bool (order_income r) (round2 amount)) eqn:E.
  - intros w0 H. rewrite (debit_insufficient_any _ _ _ _ _ E). exact H.
  - apply debit_and_record_preserves; try exact E; intros.
    + apply order_income_nonnegative_set; [|assumption].
      unfold Qlt_bool in E. apply negb_false_iff in E. apply Qle_bool_iff in E.
      unfold Qminus. rewrite <- Qle_minus_iff. exact E.
    + apply order_income_nonnegative_set; [apply Hd; exact Hin | assumption].
    + unfold insert_transaction. cbn [fst]. assumption.
Qed.

(** ** Client errors never write *)

Lemma no_client_error_respond (ok : bool) (code : nat) :
  client_error code = false -> no_client_error (respond ok code).
Proof. intros H w. exact H. Qed.

Lemma no_client_error_bind {A : Type} (m : M A) (k : A -> M response) :
  (forall a, no_client_error (k a)) -> no_client_error (bind m k).
Proof.
  intros Hk w. unfold bind. destruct (m w) as [a w'|e w']; [apply Hk | exact I].
Qed.

Lemma no_client_error_if (c : bool) (m1 m2 : M response) :
  no_client_error m1 -> no_client_error m2 -> no_client_error (if c then m1 else m2).
Proof. destruct c; tauto. Qed.

Lemma no_client_error_try_catch (m : M response) (h : exn -> M response) :
  no_client_error m -> (forall e, no_client_error (h e)) ->
  no_client_error (try_catch m h).
Proof.
  intros Hm Hh w. unfold try_catch. specialize (Hm w).
  destruct (m w) as [a w'|e w']; [exact Hm | apply Hh].
Qed.

Lemma clean_of_no_client_error (m : M response) :
  no_client_error m -> writes_nothing_on_client_error m.
Proof.
  intros H w. specialize (H w). destruct (m w) as [resp w'|e w']; [|exact I].
  intros E. congruence.
Qed.

Lemma clean_respond (ok : bool) (code : nat) :
  writes_nothing_on_client_error (respond ok code).
Proof. intros w _. reflexivity. Qed.

Lemma clean_if (c : bool) (m1 m2 : M response) :
  writes_nothing_on_client_error m1 -> writes_nothing_on_client_error m2 ->
  writes_nothing_on_client_error (if c then m1 else m2).
Proof. destruct c; tauto. Qed.

Lemma clean_bind_clock (k : Z -> M response) :
  (forall t, writes_nothing_on_client_error (k t)) ->
  writes_nothing_on_client_error (bind clock k).
Proof. intros H w. apply (H (now w) w). Qed.

Lemma clean_bind_read {A : Type} (q : database -> A) (empty : A) (k : A -> M response) :
  (forall a, writes_nothing_on_client_error (k a)) ->
  writes_nothing_on_client_error (bind (execute (fun d => (d, q d)) empty) k).
Proof.
  intros Hk w. destruct w as [d fs t].
  destruct (hd Normal fs) eqn:F.
  - rewrite (bind_execute_normal _ _ _ _ _ _ F). cbn [fst snd].
    apply (Hk (q d) (mkWorld d (tl fs) t)).
  - rewrite (bind_execute_no_effect _ _ _ _ _ _ F).
    apply (Hk empty (mkWorld d (tl fs) t)).
  - rewrite (bind_execute_throws _ _ _ _ _ _ F). exact I.
Qed.

Lemma clean_bind_read_single {A : Type} (q : database -> option A)
  (k : option A -> M response) :
  (forall a, writes_nothing_on_client_error (k a)) ->
  writes_nothing_on_client_error (bind (execute_single (fun d => (d, q d))) k).
Proof.
  intros Hk w. destruct w as [d fs t].
  unfold bind, execute_single. cbn [answers store now].
  destruct (hd Normal fs); try exact I.
  destruct (q d) as [r|]; [|exact I].
  apply (Hk (Some r) (mkWorld d (tl fs) t)).
Qed.

Lemma clean_try_catch (m : M response) (h : exn -> M response) :
  writes_nothing_on_client_error m -> (forall e, no_client_error (h e)) ->
  writes_nothing_on_client_error (try_catch m h).
Proof.
  intros Hm Hh w. unfold try_catch. specialize (Hm w).
  destruct (m w) as [a w'|e w']; [exact Hm|].
  specialize (Hh e w'). destruct (h e w') as [resp w''|e' w'']; [|exact I].
  intros E. congruence.
Qed.

Ltac no_4xx :=
  repeat first
    [ apply no_client_error_respond; reflexivity
    | apply no_client_error_if
    | apply no_client_error_try_catch
    | apply no_client_error_bind; intros
    | progress intros ].

Lemma clean_handle_withdrawal_request (data : withdrawal_request) :
  writes_nothing_on_client_error (handle_withdrawal_request data).
Proof.
  unfold handle_withdrawal_request.
  apply clean_try_catch; [|no_4xx].
  apply clean_if; [apply clean_respond|].
  destruct (wr_amount data) as [amount|]; [|apply clean_respond].
  apply clean_if; [apply clean_respond|].
  apply clean_bind_clock. intros today.
  apply (clean_bind_read
           (fun d => snd (select_withdrawals_since (str_of (wr_userId data))
                            (start_of_day today) d))).
  intros cnt. apply clean_if; [apply clean_respond|].
  apply (clean_bind_read (fun d => snd (select_investment (str_of (wr_userId data)) d))).
  intros inv. apply clean_if; [apply clean_respond|].
  apply (clean_bind_read_single
           (fun d => snd (select_wallet (str_of (wr_userId data)) d))).
  intros [w|]; [|apply clean_respond].
  unfold debit_and_record.
  apply clean_if; [apply clean_respond|].
  apply clean_of_no_client_error. no_4xx.
Qed.

Lemma clean_claim_referral_bonus (userId : option string) :
  writes_nothing_on_client_error (claim_referral_bonus userId).
Proof.
  unfold claim_referral_bonus.
  apply clean_if; [apply clean_respond|].
  apply clean_try_catch; [|no_4xx].
  apply (clean_bind_read_single (fun d => snd (select_wallet (str_of userId) d))).
  intros [w|]; [|apply clean_respond].
  apply clean_if; [apply clean_respond|].
  apply clean_of_no_client_error. no_4xx.
Qed.

Lemma clean_admin_verify_manual_payment (utr : option string) :
  writes_nothing_on_client_error (admin_verify_manual_payment utr).
Proof.
  unfold admin_verify_manual_payment.
  apply clean_try_catch; [|no_4xx].
  apply clean_if; [apply clean_respond|].
  apply (clean_bind_read (fun d => snd (select_pending_payments (str_of utr) d))).
  intros rows. apply clean_if; [apply clean_respond|].
  apply clean_of_no_client_error. no_4xx.
Qed.

Lemma clean_reject_manual_payment (utr : option string) :
  writes_nothing_on_client_error (reject_manual_payment utr).
Proof.
  unfold reject_manual_payment.
  apply clean_try_catch; [|no_4xx].
  apply clean_if; [apply clean_respond|].
  apply (clean_bind_read (fun d => snd (select_pending_payments (str_of utr) d))).
  intros rows. apply clean_if; [apply clean_respond|].
  apply clean_of_no_client_error. no_4xx.
Qed.

Lemma clean_confirm_manual_payment (data : payment_submission) :
  writes_nothing_on_client_error (confirm_manual_payment data).
Proof.
  unfold confirm_manual_payment.
  apply clean_if; [apply clean_respond|].
  destruct (ps_amount data) as [amount|]; [|apply clean_respond].
  apply clean_if; [apply clean_respond|].
  apply clean_of_no_client_error. no_4xx.
Qed.

Lemma clean_update_withdrawal_status_logic (data : status_update) :
  writes_nothing_on_client_error (update_withdrawal_status_logic data).
Proof.
  unfold update_withdrawal_status_logic.
  apply clean_try_catch; [|no_4xx].
  destruct (su_transaction_id data) as [tid|]; [|apply clean_respond].
  apply clean_if; [apply clean_respond|].
  apply clean_if; [apply clean_respond|].
  apply clean_of_no_client_error. no_4xx.
Qed.

(** X10.  Whenever one of these handlers answers with a client error (a status
    from 400 to 499), it has written nothing: the store is exactly as before
    the request, whatever the request and however the store answered.  (The
    gateway callback is not among them: its 400 marks transactions failed.) *)
Theorem client_errors_write_nothing :
  (forall data, writes_nothing_on_client_error (handle_withdrawal_request data))
  /\ (forall userId, writes_nothing_on_client_error (claim_referral_bonus userId))
  /\ (forall utr, writes_nothing_on_client_error (admin_verify_manual_payment utr))
  /\ (forall utr, writes_nothing_on_client_error (reject_manual_payment utr))
  /\ (forall data, writes_nothing_on_client_error (confirm_manual_payment data))
  /\ (forall data, writes_nothing_on_client_error (update_withdrawal_status_logic data)).
Proof.
  repeat split; intros.
  - apply clean_handle_withdrawal_request.
  - apply clean_claim_referral_bonus.
  - apply clean_admin_verify_manual_payment.
  - apply clean_reject_manual_payment.
  - apply clean_confirm_manual_payment.
  - apply clean_update_withdrawal_status_logic.
Qed.

(** ** The bonus cannot be claimed twice *)

Lemma claim_referral_bonus_rejected_run (d : database) (u : string) (w : wallet) (t : Z) :
  u <> "" ->
  wallets_of u d = [w] ->
  Qle_bool (pending_referral_bonus w) 0 = true ->
  claim_referral_bonus (Some u) (quiet d t) = Done (mkResponse false 400) (quiet d t).
Proof.
  intros Hu Hw Hb.
  unfold claim_referral_bonus, quiet. rewrite (truthy_str_some u Hu).
  change (negb true) with false. cbv iota.
  unfold try_catch, str_of. rewrite (bind_select_wallet_calm u _ d t w Hw).
  rewrite Hb. reflexivity.
Qed.

(** X11.  After a successful claim the pending bonus is zero, so claiming again is
    rejected with 400 and writes nothing: the bonus is paid out once. *)
Theorem referral_bonus_is_claimed_once (d : database) (u : string) (w : wallet) (t t' : Z) :
  u <> "" ->
  wallets_of u d = [w] ->
  ~ (pending_referral_bonus w <= 0)%Q ->
  let d1 := final_db (claim_referral_bonus (Some u) (quiet d t)) in
  returned (claim_referral_bonus (Some u) (quiet d t)) = Some (mkResponse true 200)
  /\ claim_referral_bonus (Some u) (quiet d1 t') = Done (mkResponse false 400) (quiet d1 t').
Proof.
  intros Hu Hw Hgt d1.
  assert (Hb : Qle_bool (pending_referral_bonus w) 0 = false).
  { destruct (Qle_bool (pending_referral_bonus w) 0) eqn:E; [|reflexivity].
    apply Qle_bool_iff in E. contradiction. }
  pose proof (claim_referral_bonus_run d u w t Hu Hw Hb) as Hrun.
  split; [rewrite Hrun; reflexivity|].
  set (w1 := claim_wallet (balance w + pending_referral_bonus w)
               (total_referral_earnings w + pending_referral_bonus w)
               (order_income w + pending_referral_bonus w) w).
  apply (claim_referral_bonus_rejected_run d1 u w1 t' Hu); [|reflexivity].
  subst d1. rewrite Hrun. unfold final_db, final_world, quiet. cbn [store].
  unfold insert_transaction. cbn [fst]. unfold set_transactions, wallets_of.
  cbn [user_wallets].
  fold (wallets_of u (fst (update_wallets (fun r => w_user_id r =? u)
          (claim_wallet (balance w + pending_referral_bonus w)
             (total_referral_earnings w + pending_referral_bonus w)
             (order_income w + pending_referral_bonus w)) d))).
  rewrite wallets_of_update_same by (intros; apply claim_wallet_owner).
  rewrite Hw. reflexivity.
Qed.

(** ** Gateway orders *)

Section GatewayOrders.

Variable order_create : Z -> string -> option string.

Lemma create_razorpay_order_calm (receipt u o : string) (A : Q) (d : database) (t : Z) :
  u <> "" -> ~ (A == 0)%Q ->
  order_create (amount_in_paisa A) receipt = Some o ->
  create_razorpay_order order_create receipt (mkOrderRequest (Some A) (Some u)) (quiet d t)
  = Done (mkOrderAnswer true 200 (Some o))
      (quiet (fst (insert_transaction
                     (fun id => mkTransaction id u A None "recharge" "pending" (Some o) "" t)
                     d)) t).
Proof.
  intros Hu HA Ho. unfold create_razorpay_order. cbn [or_amount or_userId].
  rewrite (truthy_num_nonzero A HA), (truthy_str_some u Hu). cbn [andb negb str_of].
  rewrite Ho. unfold try_catch, quiet. rewrite bind_clock. cbn [now].
  rewrite bind_execute_calm. reflexivity.
Qed.

(** X12.  Creating an order writes nothing but [transactions], however the store
    and the gateway answer: no wallet is credited.  When the gateway refuses
    the order the answer is 500 and nothing at all is written.  When the
    gateway returns order id [o] and the store answers normally, the answer is
    200 with [o], and one pending [recharge] transaction carrying [o] and the
    requested amount is appended. *)
Theorem create_razorpay_order_records_pending (receipt : string) (data : order_request) :
  (forall w,
     outside_transactions (final_db (create_razorpay_order order_create receipt data w))
     = outside_transactions (store w))
  /\ (forall (u : string) (A : Q) (w : world),
        data = mkOrderRequest (Some A) (Some u) ->
        u <> "" -> ~ (A == 0)%Q ->
        order_create (amount_in_paisa A) receipt = None ->
        create_razorpay_order order_create receipt data w
        = Done (mkOrderAnswer false 500 None) w)
  /\ (forall (u o : string) (A : Q) (d : database) (t : Z),
        data = mkOrderRequest (Some A) (Some u) ->
        u <> "" -> ~ (A == 0)%Q ->
        order_create (amount_in_paisa A) receipt = Some o ->
        let r := create_razorpay_order order_create receipt data (quiet d t) in
        returned r = Some (mkOrderAnswer true 200 (Some o))
        /\ transactions (final_db r)
           = transactions d
             ++ [mkTransaction (fresh_id (map t_id (transactions d))) u A None
                   "recharge" "pending" (Some o) "" t]).
Proof.
  split; [|split].
  - intros w.
    assert (K : preserves (fun d => outside_transactions d = outside_transactions (store w))
                  (create_razorpay_order order_create receipt data)).
    { unfold create_razorpay_order.
      apply preserves_if; [apply preserves_ret|].
      destruct (or_amount data) as [A|]; [|apply preserves_ret].
      apply preserves_try_catch; [|intros; apply preserves_ret].
      destruct (order_create _ _) as [o|]; [|apply preserves_raise].
      apply preserves_bind; [apply preserves_clock|]. intros created.
      apply preserves_bind; [|intros; apply preserves_ret].
      apply preserves_execute. intros d Hd. exact Hd. }
    apply K. reflexivity.
  - intros u A w -> Hu HA Ho. unfold create_razorpay_order. cbn [or_amount or_userId].
    rewrite (truthy_num_nonzero A HA), (truthy_str_some u Hu). cbn [andb negb str_of].
    rewrite Ho. reflexivity.
  - intros u o A d t -> Hu HA Ho r. subst r.
    rewrite (create_razorpay_order_calm receipt u o A d t Hu HA Ho).
    split; reflexivity.
Qed.

(** X13.  The amount credited by an accepted callback is the amount the callback
    itself carries.  An order created for [A1] and answered by a signed
    callback carrying [A2]: the payer's [recharged_amount] grows by [A2], and
    the order's transaction ends completed under the payment id, still
    recording [A1]. *)
Theorem callback_amount_is_credited
  (signature_ok : string -> string -> string -> bool)
  (receipt u o p s : string) (A1 A2 : Q) (d : database) (w : wallet) (t t' : Z) :
  u <> "" -> o <> "" -> p <> "" -> s <> "" ->
  ~ (A1 == 0)%Q -> ~ (A2 == 0)%Q ->
  order_create (amount_in_paisa A1) receipt = Some o ->
  signature_ok o p s = true ->
  wallets_of u d = [w] ->
  let d1 := final_db (create_razorpay_order order_create receipt
                        (mkOrderRequest (Some A1) (Some u)) (quiet d t)) in
  let r := verify_razorpay_payment signature_ok
             (mkCallback (Some o) (Some p) (Some s) (Some A2) (Some u)) (quiet d1 t') in
  returned r = Some (mkResponse true 200)
  /\ (exists w', wallets_of u (final_db r) = [w']
                 /\ recharged_amount w' = (recharged_amount w + A2)%Q)
  /\ In (mkTransaction (fresh_id (map t_id (transactions d))) u A1 None
           "recharge" "completed" (Some p) "" t)
        (transactions (final_db r)).
Proof.
  intros Hu Ho Hp Hs HA1 HA2 Hoc Hsig Hw d1 r.
  assert (Hd1 : d1 = set_transactions d
                       (transactions d
                        ++ [mkTransaction (fresh_id (map t_id (transactions d))) u A1 None
                              "recharge" "pending" (Some o) "" t])).
  { subst d1. rewrite (create_razorpay_order_calm receipt u o A1 d t Hu HA1 Hoc).
    reflexivity. }
  assert (Hrow : nonempty (filter (fun r => opt_str_eqb (payment_gateway_id r) o)
                             (transactions d1)) = true).
  { rewrite Hd1. cbn [set_transactions transactions]. rewrite filter_app.
    cbn [filter payment_gateway_id opt_str_eqb]. rewrite String.eqb_refl.
    destruct (filter _ (transactions d)); reflexivity. }
  assert (Hw1 : wallets_of u d1 = [w]) by (rewrite Hd1; exact Hw).
  subst r. rewrite (verify_razorpay_payment_calm signature_ok o p s u A2 d1 w t'
                      Ho Hp Hs Hu HA2 Hsig Hrow Hw1).
  unfold final_db, final_world, returned, quiet. cbn [store].
  split; [reflexivity|]. split.
  - unfold update_transactions. cbn [fst]. unfold wallets_of, set_transactions.
    cbn [user_wallets]. fold (wallets_of u (credit_effect u A2 d1)).
    apply credit_effect_recharged. rewrite Hd1. exact Hw.
  - unfold update_transactions. cbn [fst set_transactions transactions].
    assert (Htx : transactions (credit_effect u A2 d1) = transactions d1).
    { unfold credit_effect, commission_effect.
      destruct (truthy_str (referrer_of u d1)); reflexivity. }
    rewrite Htx, Hd1. cbn [set_transactions transactions].
    rewrite update_rows_app. apply in_or_app. right.
    cbn [update_rows map payment_gateway_id opt_str_eqb].
    rewrite String.eqb_refl. left. reflexivity.
Qed.

End GatewayOrders.

(** ** Footprint of a withdrawal resolution *)

Lemma refund_withdrawal_preserves (P : database -> Prop) (tid : nat) :
  (forall d u x, P d ->
     P (fst (update_wallets (fun r => w_user_id r =? u) (set_balance x) d))) ->
  preserves P (refund_withdrawal tid).
Proof.
  intros H. unfold refund_withdrawal.
  apply preserves_bind; [apply preserves_execute_single; intros d Hd; exact Hd|].
  intros [t|]; [|apply preserves_ret].
  apply preserves_bind; [apply preserves_execute_single; intros d Hd; exact Hd|].
  intros [w|]; [|apply preserves_ret].
  apply preserves_bind; [|intros; apply preserves_ret].
  apply preserves_execute. intros d Hd. apply H. exact Hd.
Qed.

Lemma update_withdrawal_status_logic_preserves (P : database -> Prop) (data : status_update) :
  (forall d u x, P d ->
     P (fst (update_wallets (fun r => w_user_id r =? u) (set_balance x) d))) ->
  (forall d id, P d ->
     P (fst (update_transactions (fun t => Nat.eqb (t_id t) id)
               (set_status (str_of (su_status data)) (su_admin_notes data)) d))) ->
  preserves P (update_withdrawal_status_logic data).
Proof.
  intros Hw Ht. unfold update_withdrawal_status_logic.
  apply preserves_try_catch; [|intros; apply preserves_respond].
  destruct (su_transaction_id data) as [tid|]; [|apply preserves_respond].
  apply preserves_if; [apply preserves_respond|].
  apply preserves_if; [apply preserves_respond|].
  apply preserves_bind.
  - apply preserves_if; [apply refund_withdrawal_preserves; exact Hw | apply preserves_ret].
  - intros _. apply preserves_bind; [apply preserves_execute; intros; apply Ht; assumption|].
    intros rows. apply preserves_if; apply preserves_respond.
Qed.

Lemma resolution_frame_refund (d0 d : database) (u : string) (x : Q) :
  resolution_frame d0 d ->
  resolution_frame d0 (fst (update_wallets (fun r => w_user_id r =? u) (set_balance x) d)).
Proof.
  intros [H1 H2]. split; [|exact H2].
  unfold update_wallets. cbn [fst set_wallets user_wallets].
  rewrite <- H1. unfold update_rows. rewrite map_map. apply map_ext.
  intros r. destruct (w_user_id r =? u); reflexivity.
Qed.

Lemma resolution_frame_status (d0 d : database) (p : transaction -> bool) (ns notes : string) :
  resolution_frame d0 d ->
  resolution_frame d0 (fst (update_transactions p (set_status ns notes) d)).
Proof.
  intros [H1 [H2 H3]]. split; [exact H1|]. split; [|exact H3].
  unfold update_transactions. cbn [fst set_transactions transactions].
  rewrite <- H2. unfold update_rows. rewrite map_map. apply map_ext.
  intros r. destruct (p r); reflexivity.
Qed.

(** X14.  What a resolution can write, however the store answers and whatever the
    request: of the wallets only [balance], of the transactions only status
    and notes.  It never writes [order_income], the field a withdrawal request
    debits.  A resolution to [completed] writes no wallet at all. *)
Theorem resolution_footprint (data : status_update) (w : world) :
  resolution_frame (store w) (final_db (update_withdrawal_status_logic data w))
  /\ (su_status data = Some "completed" ->
      user_wallets (final_db (update_withdrawal_status_logic data w))
      = user_wallets (store w)).
Proof.
  split.
  - apply (update_withdrawal_status_logic_preserves (resolution_frame (store w))).
    + intros. apply resolution_frame_refund. assumption.
    + intros. apply resolution_frame_status. assumption.
    + repeat split; reflexivity.
  - intros Hs.
    assert (K : preserves (fun d => user_wallets d = user_wallets (store w))
                  (update_withdrawal_status_logic data)).
    { unfold update_withdrawal_status_logic. rewrite Hs.
      apply preserves_try_catch; [|intros; apply preserves_respond].
      destruct (su_transaction_id data) as [tid|]; [|apply preserves_respond].
      apply preserves_if; [apply preserves_respond|].
      apply preserves_if; [apply preserves_respond|].
      change (str_in (str_of (Some "completed")) ["rejected"; "failed"]) with false.
      cbv iota.
      apply preserves_bind; [apply preserves_ret|]. intros _.
      apply preserves_bind; [apply preserves_execute; intros d Hd; exact Hd|].
      intros rows. apply preserves_if; apply preserves_respond. }
    apply K. reflexivity.
Qed.

(** ** The admin form *)

Lemma update_withdrawal_status_logic_returns (data : status_update) (w : world) :
  exists resp w', update_withdrawal_status_logic data w = Done resp w'.
Proof.
  pose proof (resolve_failure_keeps_transactions data w) as H.
  destruct (update_withdrawal_status_logic data w) as [resp w'|e w']; [eauto | destruct H].
Qed.

Lemma old_or_status_set (statuses : list string) (d0 d : database)
  (p : transaction -> bool) (ns notes : string) :
  In ns statuses ->
  old_or_status statuses d0 d ->
  old_or_status statuses d0 (fst (update_transactions p (set_status ns notes) d)).
Proof.
  intros Hns H t Ht. unfold update_transactions in Ht.
  cbn [fst set_transactions transactions] in Ht.
  unfold update_rows in Ht. apply in_map_iff in Ht. destruct Ht as [r [E Hin]].
  destruct (p r); subst t; [right; exact Hns | apply H; exact Hin].
Qed.

(** X15.  The admin form.  Without an admin session, without a transaction id, or
    with an action other than [complete] and [reject], no store call is made.
    In every case the view returns (the exception clause around the status
    update is never entered), and a transaction row it changes ends
    [completed] or [rejected]: the form cannot mark a withdrawal [failed]. *)
Theorem admin_form_actions (admin_logged_in : bool) (form : admin_form) (w : world) :
  (admin_logged_in = false \/ af_transaction_id form = None
   \/ status_of_action (str_of (af_action form)) = None ->
   exists f, process_withdrawal_action admin_logged_in form w = Done f w)
  /\ (exists f w', process_withdrawal_action admin_logged_in form w = Done f w')
  /\ old_or_status ["completed"; "rejected"] (store w)
       (final_db (process_withdrawal_action admin_logged_in form w)).
Proof.
  split; [|split].
  - intros H. unfold process_withdrawal_action, admin_required.
    destruct admin_logged_in; [|eexists; reflexivity].
    destruct H as [H|[H|H]]; [discriminate| |].
    + rewrite H. cbn [is_some andb negb]. eexists; reflexivity.
    + rewrite H. destruct (negb _); eexists; reflexivity.
  - unfold process_withdrawal_action, admin_required.
    destruct admin_logged_in; [|do 2 eexists; reflexivity].
    destruct (negb _); [do 2 eexists; reflexivity|].
    destruct (status_of_action _) as [ns|]; [|do 2 eexists; reflexivity].
    unfold try_catch, bind, update_withdrawal_status_internal.
    destruct (update_withdrawal_status_logic_returns
                (mkStatusUpdate (af_transaction_id form) (Some ns) (af_admin_notes form)) w)
      as [resp [w' E]].
    rewrite E. destruct (success resp); do 2 eexists; reflexivity.
  - assert (K : preserves (old_or_status ["completed"; "rejected"] (store w))
                  (process_withdrawal_action admin_logged_in form)).
    { unfold process_withdrawal_action, admin_required.
      apply preserves_if; [|apply preserves_ret].
      apply preserves_if; [apply preserves_ret|].
      destruct (status_of_action _) as [ns|] eqn:Hns; [|apply preserves_ret].
      assert (Hin : In ns ["completed"; "rejected"]).
      { unfold status_of_action in Hns.
        destruct (_ =? "complete"); [inversion Hns; left; reflexivity|].
        destruct (_ =? "reject"); [inversion Hns; right; left; reflexivity | discriminate]. }
      apply preserves_try_catch; [|intros; apply preserves_ret].
      apply preserves_bind.
      - unfold update_withdrawal_status_internal.
        apply update_withdrawal_status_logic_preserves.
        + intros d u x Hd. exact Hd.
        + intros d id Hd. cbn [su_status su_admin_notes str_of].
          apply old_or_status_set; assumption.
      - intros resp. apply preserves_if; apply preserves_ret. }
    apply K. intros t Ht. left. exact Ht.
Qed.

(** ** One verification run credits once *)

(** X17.  One run over a group of pending rows of a UTR, the store answering
    normally: however many rows the group has, the payer of the first row not
    yet credited is credited once, by that row's amount; every row of the
    group that was not credited ends completed. *)
Theorem one_verification_run_credits_once (utr : string) (d : database)
  (pre rest : list manual_payment) (p : manual_payment) (w : wallet) (t : Z) :
  utr <> "" ->
  pending_group utr d = pre ++ p :: rest ->
  Forall (fun q => is_credited q = true) pre ->
  is_credited p = false ->
  wallets_of (mp_user_id p) d = [w] ->
  let r := admin_verify_manual_payment (Some utr) (quiet d t) in
  returned r = Some (mkResponse true 200)
  /\ (exists w', wallets_of (mp_user_id p) (final_db r) = [w']
                 /\ recharged_amount w' = (recharged_amount w + mp_amount p)%Q)
  /\ (forall q, In q (p :: rest) -> is_credited q = false ->
                completed_ids [mp_id q] (final_db r)).
Proof.
  intros Hu Hg Hpre Hp Hw r. subst r.
  rewrite (admin_verify_manual_payment_calm utr d t Hu), Hg.
  assert (Hn : nonempty (pre ++ p :: rest) = true) by (destruct pre; reflexivity).
  rewrite Hn. unfold final_db, final_world, returned, quiet. cbn [store].
  split; [reflexivity|]. split.
  - rewrite (wallets_of_ledger _ _ _
               (process_payments_effect_credits_once pre rest p d Hpre Hp)).
    apply credit_effect_recharged. exact Hw.
  - intros q Hq Hc. apply process_payments_effect_completes; [|exact Hc].
    apply in_or_app. right. exact Hq.
Qed.

(** ** Request, then resolution *)



(** ** Counting toward the daily limit *)

(** X19.  An accepted request made after the start of the day is counted by the
    daily limit.  If the user already had one withdrawal transaction today,
    the next well-formed request of the same day is refused with 403. *)
Theorem accepted_request_counts_toward_limit (d : database) (u card : string)
  (amount : Q) (b : bank_details) (w : wallet) (clk clk' : Z) :
  u <> "" -> card <> "" -> truthy_details (Some b) = true -> (0 < amount)%Q ->
  (List.length (withdrawals_today u clk d) < 2)%nat ->
  has_investment u d = true ->
  wallets_of u d = [w] ->
  ~ (order_income w < round2 amount)%Q ->
  (start_of_day clk' < clk)%Z ->
  let d' := final_db (handle_withdrawal_request
                        (mkWithdrawal (Some u) (Some amount) (Some card) (Some b))
                        (quiet d clk)) in
  List.length (withdrawals_today u clk' d') = S (List.length (withdrawals_today u clk' d))
  /\ (forall (card' : string) (amount' : Q) (b' : bank_details),
        card' <> "" -> truthy_details (Some b') = true -> (0 < amount')%Q ->
        (1 <= List.length (withdrawals_today u clk' d))%nat ->
        handle_withdrawal_request
          (mkWithdrawal (Some u) (Some amount') (Some card') (Some b')) (quiet d' clk')
        = Done (mkResponse false 403) (quiet d' clk')).
Proof.
  intros Hu Hc Hb Ha Hl Hi Hw Hge Hday d'.
  assert (Hge' : Qlt_bool (order_income w) (round2 amount) = false)
    by (apply Qlt_bool_false; exact Hge).
  assert (Hd' : d' = recorded u amount w clk d).
  { subst d'. unfold quiet.
    rewrite (withdrawal_passes_gates d u card amount b w clk Hu Hc Hb Ha Hl Hi Hw [])
      by reflexivity.
    cbn [tl]. unfold try_catch.
    rewrite (debit_and_record_run d u amount b w clk Hw [] Hge') by reflexivity.
    destruct (is_some (accountNumber b)); reflexivity. }
  assert (Hcount : List.length (withdrawals_today u clk' d')
                   = S (List.length (withdrawals_today u clk' d))).
  { rewrite Hd'. unfold withdrawals_today, select_withdrawals_since, recorded, debited,
      insert_transaction, update_wallets.
    cbn [snd fst set_transactions set_wallets transactions].
    rewrite filter_app, length_app. cbn [filter t_user_id t_type created_at].
    rewrite !String.eqb_refl.
    assert (E : (start_of_day clk' <? clk)%Z = true) by (apply Z.ltb_lt; exact Hday).
    rewrite E. cbn [andb List.length]. lia. }
  split; [exact Hcount|].
  intros card' amount' b' Hc' Hb' Ha' H1.
  apply withdrawal_over_daily_limit; try assumption.
  rewrite Hcount. lia.
Qed.

(** * Scenarios *)





(** C10 at a forged callback for the pending order of the referral store. *)
Lemma invalid_signature_marks_failed_witness :
  returned (verify_razorpay_payment demo_signature_ok
              (mkCallback (Some "order_A") (Some "pay_A") (Some "forged") (Some 1000)
                 (Some "u2"))
              (quiet referral_db 100))
  = Some (mkResponse false 400)
  /\ user_wallets (final_db (verify_razorpay_payment demo_signature_ok
                               (mkCallback (Some "order_A") (Some "pay_A") (Some "forged")
                                  (Some 1000) (Some "u2"))
                               (mkWorld referral_db [NoEffect] 100)))
     = user_wallets referral_db.
Proof.
  assert (A : ~ (1000 == 0)%Q) by discriminate.
  assert (O : "order_A" <> "") by discriminate.
  assert (P : "pay_A" <> "") by discriminate.
  assert (S : "forged" <> "") by discriminate.
  assert (U : "u2" <> "") by discriminate.
  pose proof (invalid_signature_marks_failed demo_signature_ok "order_A" "pay_A" "forged"
                "u2" 1000 referral_db O P S U A eq_refl) as [H1 H2].
  split.
  - exact (proj1 (H2 100%Z)).
  - exact (proj1 (H1 [NoEffect] 100%Z)).
Defined.

(** * Scenarios for the further properties *)

(** X2, witness.  Rejecting the three pending submissions of the UTR; an unknown UTR. *)
Lemma rejected_utr_cannot_be_verified_witness :
  pending_group "123456789012"
    (final_db (reject_manual_payment (Some "123456789012") (quiet triple_db 100))) = []
  /\ reject_manual_payment (Some "000000000000") (quiet triple_db 100)
     = Done (mkResponse false 404) (quiet triple_db 100).
Proof.
  split.
  - refine (proj1 (proj2 (proj2 (rejected_utr_cannot_be_verified "123456789012" triple_db
                                   100 200 _) _)));
      discriminate.
  - refine (proj1 (rejected_utr_cannot_be_verified "000000000000" triple_db 100 200 _) _);
      [discriminate | reflexivity].
Defined.

(** X3, witness.  A resubmission of the UTR that is already pending. *)
Lemma confirm_manual_payment_appends_pending_witness :
  returned (confirm_manual_payment
              (mkSubmission (Some "u2") (Some 1000) (Some "123456789012")
                 (Some "9876543210"))
              (quiet referral_db 200))
  = Some (mkResponse true 201).
Proof.
  refine (proj1 (confirm_manual_payment_appends_pending "u2" "123456789012" "9876543210"
                   1000 referral_db 200 _ _ eq_refl eq_refl));
    discriminate.
Defined.

(** X4, witness.  The investor submits 250 under a new UTR, which is then verified. *)
Lemma submitted_payment_is_credited_on_verification_witness :
  returned (admin_verify_manual_payment (Some "999999999999")
              (quiet (final_db (confirm_manual_payment
                                  (mkSubmission (Some "u1") (Some 250)
                                     (Some "999999999999") (Some "9876543210"))
                                  (quiet investor_db 100)))
                 200))
  = Some (mkResponse true 200).
Proof.
  refine (proj1 (submitted_payment_is_credited_on_verification "u1" "999999999999"
                   "9876543210" 250 investor_db (mkWallet "u1" 0 500 0 0 0 1000) 100 200
                   _ _ eq_refl eq_refl eq_refl eq_refl));
    discriminate.
Defined.

(** X5, witness.  After the verification of the triple submission, [u2] counts as invested. *)
Lemma verification_makes_payer_eligible_witness :
  returned (check_successful_investment (Some "u2")
              (quiet (final_db (admin_verify_manual_payment (Some "123456789012")
                                  (quiet triple_db 100)))
                 200))
  = Some (mkInvestmentAnswer true 200).
Proof.
  pose proof (verification_makes_payer_eligible "123456789012" triple_db
                (mkManualPayment 1 "u2" 1000 "123456789012" "9876543210" "pending" false)
                100 200) as H.
  cbn [mp_user_id] in H. rewrite H.
  - reflexivity.
  - discriminate.
  - left; reflexivity.
  - reflexivity.
  - discriminate.
Defined.

(** X6, witness.  A third request on the day of a rejected and a completed withdrawal; a
    request of a user whose only payment is still pending. *)
Lemma withdrawal_gate_refusals_witness :
  handle_withdrawal_request
    (mkWithdrawal (Some "u1") (Some 100) (Some "card-1") (Some sbi_account))
    (quiet limit_db 90000)
  = Done (mkResponse false 403) (quiet limit_db 90000)
  /\ handle_withdrawal_request
       (mkWithdrawal (Some "u2") (Some 100) (Some "card-1") (Some sbi_account))
       (quiet referral_db 90000)
     = Done (mkResponse false 403) (quiet referral_db 90000).
Proof.
  split.
  - refine (withdrawal_gate_refusals limit_db "u1" "card-1" 100 sbi_account 90000
              _ _ eq_refl eq_refl (or_introl _)); try discriminate.
    repeat constructor.
  - refine (withdrawal_gate_refusals referral_db "u2" "card-1" 100 sbi_account 90000
              _ _ eq_refl eq_refl (or_intror eq_refl)); discriminate.
Defined.

(** X7, witness.  [u2] recharges through the gateway and then asks for a withdrawal. *)
Lemma gateway_recharge_does_not_unlock_withdrawal_witness :
  handle_withdrawal_request
    (mkWithdrawal (Some "u2") (Some 100) (Some "card-1") (Some sbi_account))
    (quiet after_first_callback 90000)
  = Done (mkResponse false 403) (quiet after_first_callback 90000).
Proof.
  refine (proj2 (gateway_recharge_does_not_unlock_withdrawal demo_signature_ok callback_A
                   (quiet referral_db 100))
            "u2" "card-1" 100 sbi_account 90000%Z _ _ eq_refl eq_refl eq_refl);
    discriminate.
Defined.

(** X9, witness.  The investor's request, the store raising on the insert. *)
Lemma withdrawal_keeps_order_income_nonnegative_witness :
  order_income_nonnegative
    (final_db (handle_withdrawal_request withdraw_500
                 (mkWorld investor_db insert_raises 90000))).
Proof.
  apply (withdrawal_keeps_order_income_nonnegative withdraw_500
           (mkWorld investor_db insert_raises 90000)).
  intros w [<-|[]]. discriminate.
Defined.

(** X10, witness.  The refusal of [u2]'s request is a client error: nothing was written. *)
Lemma client_errors_write_nothing_witness :
  final_db (handle_withdrawal_request
              (mkWithdrawal (Some "u2") (Some 100) (Some "card-1") (Some sbi_account))
              (quiet referral_db 90000))
  = referral_db.
Proof.
  pose proof (proj1 client_errors_write_nothing
                (mkWithdrawal (Some "u2") (Some 100) (Some "card-1") (Some sbi_account))
                (quiet referral_db 90000)) as H.
  unfold final_db.
  destruct (handle_withdrawal_request _ _) as [resp w'|e w'] eqn:E.
  - cbn [final_world]. apply H.
    assert (E' : returned (handle_withdrawal_request
                             (mkWithdrawal (Some "u2") (Some 100) (Some "card-1")
                                (Some sbi_account))
                             (quiet referral_db 90000))
                 = Some (mkResponse false 403)) by reflexivity.
    rewrite E in E'. inversion E'. reflexivity.
  - exfalso.
    assert (E' : returned (handle_withdrawal_request
                             (mkWithdrawal (Some "u2") (Some 100) (Some "card-1")
                                (Some sbi_account))
                             (quiet referral_db 90000))
                 = Some (mkResponse false 403)) by reflexivity.
    rewrite E in E'. discriminate.
Defined.

(** X11, witness.  The pending bonus of 10 claimed twice. *)
Lemma referral_bonus_is_claimed_once_witness :
  claim_referral_bonus (Some "u1")
    (quiet (final_db (claim_referral_bonus (Some "u1") (quiet (claim_db 10) 0))) 5)
  = Done (mkResponse false 400)
      (quiet (final_db (claim_referral_bonus (Some "u1") (quiet (claim_db 10) 0))) 5).
Proof.
  refine (proj2 (referral_bonus_is_claimed_once (claim_db 10) "u1"
                   (mkWallet "u1" 5 7 0 3 10 0) 0 5 _ eq_refl _)).
  - discriminate.
  - intros H. apply Qle_bool_iff in H. discriminate.
Defined.

(** X12, witness.  An order of 1000 for [u2]; an order the gateway refuses. *)
Lemma create_razorpay_order_records_pending_witness :
  returned (create_razorpay_order demo_order_create "receipt-1"
              (mkOrderRequest (Some 1000) (Some "u2")) (quiet referral_db 100))
  = Some (mkOrderAnswer true 200 (Some "order_B"))
  /\ create_razorpay_order demo_order_create "receipt-1"
       (mkOrderRequest (Some (1 # 1000)) (Some "u2")) (quiet referral_db 100)
     = Done (mkOrderAnswer false 500 None) (quiet referral_db 100).
Proof.
  split.
  - refine (proj1 (proj2 (proj2 (create_razorpay_order_records_pending demo_order_create
                                   "receipt-1" (mkOrderRequest (Some 1000) (Some "u2"))))
                     "u2" "order_B" 1000 referral_db 100%Z eq_refl _ _ eq_refl));
      discriminate.
  - refine (proj1 (proj2 (create_razorpay_order_records_pending demo_order_create
                            "receipt-1" (mkOrderRequest (Some (1 # 1000)) (Some "u2"))))
              "u2" (1 # 1000) (quiet referral_db 100) eq_refl _ _ eq_refl);
      discriminate.
Defined.

(** X13, witness.  An order created for 100 and answered by a signed callback carrying
    1000. *)
Lemma callback_amount_is_credited_witness :
  returned (verify_razorpay_payment demo_signature_ok
              (mkCallback (Some "order_B") (Some "pay_B") (Some "signed") (Some 1000)
                 (Some "u2"))
              (quiet (final_db (create_razorpay_order demo_order_create "receipt-1"
                                  (mkOrderRequest (Some 100) (Some "u2"))
                                  (quiet referral_db 100)))
                 200))
  = Some (mkResponse true 200).
Proof.
  refine (proj1 (callback_amount_is_credited demo_order_create demo_signature_ok
                   "receipt-1" "u2" "order_B" "pay_B" "signed" 100 1000 referral_db
                   (mkWallet "u2" 0 0 0 0 0 0) 100 200
                   _ _ _ _ _ _ eq_refl eq_refl eq_refl));
    discriminate.
Defined.

(** X14, witness.  Completing the pending withdrawal of the scenario writes no wallet. *)
Lemma resolution_footprint_witness :
  user_wallets (final_db (update_withdrawal_status_logic
                            (mkStatusUpdate (Some 1%nat) (Some "completed") "")
                            (quiet after_withdrawal 90100)))
  = user_wallets after_withdrawal.
Proof.
  exact (proj2 (resolution_footprint (mkStatusUpdate (Some 1%nat) (Some "completed") "")
                  (quiet after_withdrawal 90100)) eq_refl).
Defined.

(** X15, witness.  The form posted without an admin session; an unknown action. *)
Lemma admin_form_actions_witness :
  (exists f, process_withdrawal_action false (mkAdminForm (Some 1%nat) (Some "reject") "")
               (quiet after_withdrawal 90100)
             = Done f (quiet after_withdrawal 90100))
  /\ (exists f, process_withdrawal_action true (mkAdminForm (Some 1%nat) (Some "fail") "")
                  (quiet after_withdrawal 90100)
                = Done f (quiet after_withdrawal 90100)).
Proof.
  split.
  - exact (proj1 (admin_form_actions false (mkAdminForm (Some 1%nat) (Some "reject") "")
                    (quiet after_withdrawal 90100)) (or_introl eq_refl)).
  - exact (proj1 (admin_form_actions true (mkAdminForm (Some 1%nat) (Some "fail") "")
                    (quiet after_withdrawal 90100)) (or_intror (or_intror eq_refl))).
Defined.

(** X17, witness.  The triple submission: one credit of 1000. *)
Lemma one_verification_run_credits_once_witness :
  returned (admin_verify_manual_payment (Some "123456789012") (quiet triple_db 100))
  = Some (mkResponse true 200)
  /\ exists w', wallets_of "u2"
                  (final_db (admin_verify_manual_payment (Some "123456789012")
                               (quiet triple_db 100)))
                = [w']
                /\ recharged_amount w' = (0 + 1000)%Q.
Proof.
  pose proof (one_verification_run_credits_once "123456789012" triple_db []
                [mkManualPayment 2 "u2" 1000 "123456789012" "9876543210" "pending" false;
                 mkManualPayment 3 "u2" 1000 "123456789012" "9876543210" "pending" false]
                (mkManualPayment 1 "u2" 1000 "123456789012" "9876543210" "pending" false)
                (mkWallet "u2" 0 0 0 0 0 0) 100) as H.
  destruct H as [H1 [H2 _]]; try reflexivity; try discriminate.
  - constructor.
  - split; [exact H1 | exact H2].
Defined.


(** X19, witness.  The investor's first request of the day is counted. *)
Lemma accepted_request_counts_toward_limit_witness :
  List.length
    (withdrawals_today "u1" 90500
       (final_db (handle_withdrawal_request
                    (mkWithdrawal (Some "u1") (Some 500) (Some "card-1") (Some sbi_account))
                    (quiet investor_db 90000))))
  = S (List.length (withdrawals_today "u1" 90500 investor_db)).
Proof.
  refine (proj1 (accepted_request_counts_toward_limit investor_db "u1" "card-1" 500
                   sbi_account (mkWallet "u1" 0 500 0 0 0 1000) 90000 90500
                   _ _ eq_refl eq_refl _ eq_refl eq_refl _ _)).
  - discriminate.
  - discriminate.
  - repeat constructor.
  - intros H. vm_compute in H. discriminate.
  - reflexivity.
Defined.
